(** * solidity-deployer: deterministic deployment and contract verification

    A shallow embedding of [SingletonDeployer] and [ContractVerifier].

    The two classes are asynchronous TypeScript code that talks to a chain
    provider, a singleton factory contract, an HTTP client and two
    verification back ends.  Every [await] is sequential, so a method is
    modelled as a computation in a state-and-exception monad: the state
    carries the outside world (whose answers are arbitrary functions of it),
    the heap of JavaScript objects the method can share with its caller, and
    the list of external calls made so far. *)

From Stdlib Require Import ZArith Strings.Byte Ascii.
From stdpp Require Import gmap strings list fin_maps pretty.

#[local] Set Warnings "-register-all".

(** ** JavaScript values and errors *)

(** Binary data.  ethers passes binary data around as [0x]-prefixed hex
    strings; a value of this type is the byte sequence such a string
    denotes. *)
Abbreviation bytes := (list byte).

(** [new Error(message)], and whatever an external call rejects with. *)
Record JsError := Error { message : string }.

(** The completion of a call: a returned value or a thrown error. *)
Inductive outcome (A : Type) :=
  | Ok (a : A)
  | Throw (e : JsError).
Arguments Ok {A} a.
Arguments Throw {A} e.

(** The field values a transaction request can hold ([BigNumberish] and
    friends). *)
Inductive JsVal :=
  | JsNull
  | JsBool (b : bool)
  | JsNumber (n : Z)
  | JsBigInt (n : Z)
  | JsString (s : string)
  | JsBigNumber (n : Z)
  | JsBytes (b : bytes).

(** JavaScript truthiness: [null], [false], [0], [0n] and [''] are falsy,
    every object (a [BigNumber], a byte array) is truthy. *)
Definition truthy (v : JsVal) : bool :=
  match v with
  | JsNull => false
  | JsBool b => b
  | JsNumber n => negb (n =? 0)%Z
  | JsBigInt n => negb (n =? 0)%Z
  | JsString s => negb (String.eqb s "")
  | JsBigNumber _ => true
  | JsBytes _ => true
  end.

(** [!x] for a property read: a missing property reads [undefined], which
    is falsy. *)
Definition falsy (v : option JsVal) : bool :=
  match v with
  | None => true
  | Some v => negb (truthy v)
  end.

(** ** The state-and-exception monad *)

Definition M (S A : Type) : Type := S → outcome A * S.

Definition ret {S A} (a : A) : M S A := λ s, (Ok a, s).

Definition throw {S A} (e : JsError) : M S A := λ s, (Throw e, s).

Definition bind {S A B} (m : M S A) (k : A → M S B) : M S B :=
  λ s, match m s with
       | (Ok a, s') => k a s'
       | (Throw e, s') => (Throw e, s')
       end.

(** [try { m } catch (error) { h error }] *)
Definition try_catch {S A} (m : M S A) (h : JsError → M S A) : M S A :=
  λ s, match m s with
       | (Ok a, s') => (Ok a, s')
       | (Throw e, s') => h e s'
       end.

(** A synchronous call that may throw. *)
Definition lift {S A} (r : outcome A) : M S A := λ s, (r, s).

Notation "'let!' x ':=' m 'in' k" := (bind m (λ x, k))
  (at level 10, x name, m at level 100, k at level 200,
   format "'[v' 'let!'  x  ':='  m  'in' '/' k ']'").
Notation "m ';;;' k" := (bind m (λ _, k))
  (at level 100, k at level 200, only parsing).

(** ** Hex strings *)

Definition hexDigit (n : N) : ascii :=
  match n with
  | 0 => "0" | 1 => "1" | 2 => "2" | 3 => "3" | 4 => "4" | 5 => "5"
  | 6 => "6" | 7 => "7" | 8 => "8" | 9 => "9" | 10 => "a" | 11 => "b"
  | 12 => "c" | 13 => "d" | 14 => "e" | _ => "f"
  end%N%char.

Fixpoint hexBody (b : bytes) : string :=
  match b with
  | [] => ""
  | x :: b' =>
      String (hexDigit (Byte.to_N x / 16))
        (String (hexDigit (Byte.to_N x mod 16)) (hexBody b'))
  end.

(** [ethers.utils.hexlify]: the [0x]-prefixed lower-case rendering. *)
Definition hexlify (b : bytes) : string := "0x" +:+ hexBody b.

(** [ethers.constants.HashZero] *)
Definition HashZero : bytes := repeat x00 32.

(** [ethers.utils.hexDataSlice(data, offset)] with no end offset: the bytes
    from [offset] on. *)
Definition hexDataSlice (data : bytes) (offset : nat) : bytes := drop offset data.

(** The Solidity types [solidityPack] is called with. *)
Inductive SolType :=
  | bytesN (size : nat)
  | address_t.

(** ethers' [_pack(type, value)] outside an array: an [address] is packed
    as its bytes, a [bytesN] must be exactly [N] bytes long with
    [0 < N <= 32]. *)
Definition pack1 (t : SolType) (v : bytes) : outcome bytes :=
  match t with
  | address_t => Ok v
  | bytesN size =>
      if (size =? 0)%nat || (32 <? size)%nat then
        Throw (Error "invalid bytes type")
      else if negb (length v =? size)%nat then
        Throw (Error "invalid value for bytes")
      else Ok v
  end.

Fixpoint packAll (ts : list SolType) (vs : list bytes) : outcome bytes :=
  match ts, vs with
  | t :: ts', v :: vs' =>
      match pack1 t v with
      | Ok b =>
          match packAll ts' vs' with
          | Ok rest => Ok (b ++ rest)
          | Throw e => Throw e
          end
      | Throw e => Throw e
      end
  | _, _ => Ok []
  end.

(** [ethers.utils.solidityPack(types, values)]: the tight concatenation. *)
Definition solidityPack (ts : list SolType) (vs : list bytes) : outcome bytes :=
  if negb (length ts =? length vs)%nat then
    Throw (Error "wrong number of values")
  else packAll ts vs.

(** The last [n] elements of a list. *)
Definition lastn {A} (n : nat) (l : list A) : list A := drop (length l - n) l.

(** ** External capabilities

    The chain provider, the factory contract, the typechain contract
    factories and the ethers utilities are not part of this code base.  Each
    asynchronous call is a transition of the outside world [W] that returns
    or rejects. *)

(** [ethers.utils.keccak256] and [ethers.utils.getAddress] (the checksummed
    rendering of an address, which throws on anything that is not one). *)
Record EthersUtils := {
  keccak256 : bytes → bytes;
  getAddress : bytes → outcome string
}.

(** A block as [provider.getBlock] returns it; [gasLimit] is a
    [BigNumber]. *)
Record Block := { gasLimit : Z }.

(** [BigNumber.mul] and [BigNumber.div]; the latter truncates towards
    zero. *)
Definition BigNumber_mul (a b : Z) : Z := (a * b)%Z.
Definition BigNumber_div (a b : Z) : Z := (a ÷ b)%Z.

(** A [providers.TransactionRequest] object, and a reference to one. *)
Abbreviation TransactionRequest := (gmap string JsVal).
Abbreviation loc := positive.

(** [providers.Provider] *)
Record Provider (W : Type) := {
  getCode : string → W → outcome string * W;
  getBlock : string → W → outcome Block * W
}.
Arguments getCode {W} _ _ _.
Arguments getBlock {W} _ _ _.

(** The pending transaction a contract call resolves to; the receipt
    [wait] resolves to is not used. *)
Record ContractTransaction (W : Type) := {
  wait : W → outcome unit * W
}.
Arguments wait {W} _ _.

(** What [getDeployTransaction] returns; [data] may be [undefined]. *)
Record DeployTransaction := { data : option bytes }.

(** An ethers [ContractFactory] instance over constructor arguments [Args],
    producing handles of type [Contract]. *)
Record ContractFactory (Args Contract : Type) := {
  bytecode : string;
  getDeployTransaction : Args → outcome DeployTransaction;
  attach : string → Contract
}.
Arguments bytecode {Args Contract} _.
Arguments getDeployTransaction {Args Contract} _ _.
Arguments attach {Args Contract} _ _.

Module SingletonFactory.

(** [SingletonFactoryContract]: the factory's address and its
    [deploy(initCode, salt, overrides)] entry point. *)
Record SingletonFactoryContract (W : Type) := {
  address : bytes;
  deploy : bytes → bytes → TransactionRequest → W →
           outcome (ContractTransaction W) * W
}.
Arguments address {W} _.
Arguments deploy {W} _ _ _ _ _.

End SingletonFactory.

(** ** SingletonDeployer *)

Module SingletonDeployer.

(** The external calls a deployer makes, in the order it makes them. *)
Inductive Event :=
  | EvLog (msg : string)
  | EvLogError (msg : string)
  | EvGetCode (addr : string)
  | EvGetBlock (tag : string)
  | EvFactoryDeploy (initCode salt : bytes) (txParams : loc)
      (overrides : TransactionRequest)
  | EvWait.

Record State (W : Type) := mkState {
  world : W;
  heap : gmap loc TransactionRequest;
  trace : list Event
}.
Arguments mkState {W} _ _ _.
Arguments world {W} _.
Arguments heap {W} _.
Arguments trace {W} _.

(** The events that send a chain-mutating transaction. *)
Definition isTransaction (ev : Event) : bool :=
  match ev with
  | EvFactoryDeploy _ _ _ _ => true
  | _ => false
  end.

(** The fields of a constructed deployer; [logger] tells whether the
    optional logger was given, [provider] is [signer.provider]. *)
Record SingletonDeployer (W Signer : Type) := {
  signer : Signer;
  logger : bool;
  provider : Provider W;
  singletonFactory : SingletonFactory.SingletonFactoryContract W
}.
Arguments signer {W Signer} _.
Arguments logger {W Signer} _.
Arguments provider {W Signer} _.
Arguments singletonFactory {W Signer} _.

Section Deployer.

Context {W Signer Args Contract : Type}.
Variable ethers : EthersUtils.
Variable this : SingletonDeployer W Signer.

Definition emit (ev : Event) : M (State W) unit :=
  λ s, (Ok tt, mkState (world s) (heap s) (trace s ++ [ev])).

(** An awaited call on the outside world. *)
Definition call {A} (ev : Event) (f : W → outcome A * W) : M (State W) A :=
  λ s, let '(r, w) := f (world s) in
       (r, mkState w (heap s) (trace s ++ [ev])).

(** [this.logger?.log(msg)] and [this.logger?.error(msg)] *)
Definition log (msg : string) : M (State W) unit :=
  if logger this then emit (EvLog msg) else ret tt.

Definition logError (msg : string) : M (State W) unit :=
  if logger this then emit (EvLogError msg) else ret tt.

(** Object allocation, property read and property write.  A reference
    always denotes a live object; at a dangling one the model reads
    [undefined] and writes nothing. *)
Definition alloc (obj : TransactionRequest) : M (State W) loc :=
  λ s, let l := fresh (dom (heap s)) in
       (Ok l, mkState (world s) (<[l := obj]> (heap s)) (trace s)).

Definition readField (l : loc) (k : string) : M (State W) (option JsVal) :=
  λ s, (Ok (heap s !! l ≫= λ obj, obj !! k), s).

Definition writeField (l : loc) (k : string) (v : JsVal) : M (State W) unit :=
  λ s, (Ok tt, mkState (world s) (alter (<[k := v]>) l (heap s)) (trace s)).

(** [this.singletonFactory.deploy(data, salt, txParams)]: the factory
    contract reads the overrides object it is handed. *)
Definition factoryDeploy (initCode salt : bytes) (txParams : loc)
    : M (State W) (ContractTransaction W) :=
  λ s, let overrides := default ∅ (heap s !! txParams) in
       call (EvFactoryDeploy initCode salt txParams overrides)
         (SingletonFactory.deploy (singletonFactory this) initCode salt overrides) s.

(** [addressFromData] (lines 89-106).  It is declared [async] but awaits
    nothing. *)
Definition addressFromData (data : bytes) : outcome string :=
  match
    solidityPack [bytesN 1; address_t; bytesN 32; bytesN 32]
      [[xff]; SingletonFactory.address (singletonFactory this); HashZero;
       keccak256 ethers data]
  with
  | Ok packed => getAddress ethers (hexDataSlice (keccak256 ethers packed) 12)
  | Throw e => Throw e
  end.

(** Lines 53-58 of [deploy], under its comment "Up the gas". *)
Definition upTheGas (txParams : loc) : M (State W) unit :=
  let! g := readField txParams "gasLimit" in
  if falsy g then
    let! b := call (EvGetBlock "latest") (getBlock (provider this) "latest") in
    writeField txParams "gasLimit"
      (JsBigNumber (BigNumber_div (BigNumber_mul (gasLimit b) 4) 10))
  else ret tt.

(** [deploy] (lines 30-75).  [txParams] is a reference to the caller's
    object, or [None] when the argument is omitted and the default [{}] is
    allocated. *)
Definition deploy (name : string)
    (contract : Signer → ContractFactory Args Contract)
    (txParams : option loc) (args : Args) : M (State W) Contract :=
  let! txParams :=
    (match txParams with Some l => ret l | None => alloc ∅ end) in
  log ("Deploying " +:+ name) ;;;
  let c := contract (signer this) in
  let! dtx := lift (getDeployTransaction c args) in
  match data dtx with
  | None => throw (Error ("No data for " +:+ name))
  | Some data =>
      let! address := lift (addressFromData data) in
      let! code :=
        call (EvGetCode address) (getCode (provider this) address) in
      if (2 <? String.length code)%nat then
        log ("Skipping " +:+ name +:+ " because it has been deployed at "
             +:+ address) ;;;
        ret (attach c address)
      else
        upTheGas txParams ;;;
        let! tx := factoryDeploy data HashZero txParams in
        call EvWait (wait tx) ;;;
        let! code' :=
          call (EvGetCode address) (getCode (provider this) address) in
        if (String.length code' <=? 2)%nat then
          let errMsg := "Failed to deploy " +:+ name +:+ " at " +:+ address in
          logError errMsg ;;;
          throw (Error errMsg)
        else ret (attach c address)
  end.

(** [addressOf] (lines 77-87); [contractName] is [contract.name]. *)
Definition addressOf (contractName : string)
    (contract : Signer → ContractFactory Args Contract)
    (args : Args) : outcome string :=
  let c := contract (signer this) in
  match getDeployTransaction c args with
  | Throw e => Throw e
  | Ok dtx =>
      match data dtx with
      | None => Throw (Error ("No data for " +:+ contractName))
      | Some data => addressFromData data
      end
  end.

End Deployer.

(** The estimate [b.gasLimit.mul(4).div(10)]. *)
Abbreviation estimate b :=
  (JsBigNumber (BigNumber_div (BigNumber_mul (gasLimit b) 4) 10)).

(** The object the parameter [txParams] denotes when the body of [deploy]
    starts, and the heap it lives in. *)
Abbreviation paramLoc txParams s :=
  (match txParams with Some l => l | None => fresh (dom (heap s)) end).
Abbreviation paramHeap txParams s :=
  (match txParams with
   | Some _ => heap s
   | None => <[fresh (dom (heap s)) := ∅]> (heap s)
   end).

End SingletonDeployer.

(** ** Strings

    A string is its sequence of code units, each below 256: addresses,
    bytecode, version strings and registry file names are ASCII. *)

(** [s.includes(needle)] *)
Fixpoint startsWith (needle s : string) : bool :=
  match needle, s with
  | EmptyString, _ => true
  | String a needle', String b s' => Ascii.eqb a b && startsWith needle' s'
  | String _ _, EmptyString => false
  end.

Fixpoint includes (needle s : string) : bool :=
  startsWith needle s ||
  match s with
  | EmptyString => false
  | String _ s' => includes needle s'
  end.

(** [s.split(sep)] for a separator of one character, which is how the
    verifier calls it.  The result is never empty. *)
Fixpoint split (sep : ascii) (s : string) : list string :=
  match s with
  | EmptyString => [EmptyString]
  | String c s' =>
      if Ascii.eqb c sep then EmptyString :: split sep s'
      else match split sep s' with
           | piece :: pieces => String c piece :: pieces
           | [] => [String c EmptyString]
           end
  end.

(** Line terminators, which [.] in a regular expression does not match
    (of the four ECMAScript line terminators, the two below 256). *)
Definition isLineTerminator (c : ascii) : bool :=
  Ascii.eqb c "010" || Ascii.eqb c "013".

(** The third group of the verifier's regular expression, [.js] with an
    unescaped dot, at the head of [s]: any character but a line terminator,
    then [js].  Returns what follows the match. *)
Definition matchDotJs (s : string) : option string :=
  match s with
  | String c (String "j" (String "s" rest)) =>
      if isLineTerminator c then None else Some rest
  | _ => None
  end.

(** The second and third groups, a starred dot and then [.js], at the head
    of [s].  The star is greedy: it first takes one more character, and
    gives it back when the rest cannot match.  Returns what the second
    group captured and what follows the match. *)
Fixpoint matchStarDotJs (s : string) : option (string * string) :=
  match s with
  | String c s' =>
      if isLineTerminator c then None
      else match matchStarDotJs s' with
           | Some (group2, rest) => Some (String c group2, rest)
           | None =>
               match matchDotJs s with
               | Some rest => Some (EmptyString, rest)
               | None => None
               end
           end
  | EmptyString => None
  end.

(** A string without line terminators. *)
Fixpoint singleLine (s : string) : bool :=
  match s with
  | EmptyString => true
  | String c s' => negb (isLineTerminator c) && singleLine s'
  end.

(** [str.substring(n)] *)
Fixpoint substringFrom (n : nat) (s : string) : string :=
  match n, s with
  | O, _ => s
  | S n', String _ s' => substringFrom n' s'
  | S _, EmptyString => EmptyString
  end.

(** The whole expression, the group [soljson-] and then the two groups
    above, at the head of [s]. *)
Definition matchSoljson (s : string) : option (string * string) :=
  if startsWith "soljson-" s then matchStarDotJs (substringFrom 8 s) else None.

(** [fullVersion.replace(re, '$2')] for that expression [re]: the leftmost
    match is replaced by its second group; without a match the string is
    returned as it is. *)
Fixpoint replaceSoljson (s : string) : string :=
  match matchSoljson s with
  | Some (group2, rest) => group2 +:+ rest
  | None =>
      match s with
      | EmptyString => EmptyString
      | String c s' => String c (replaceSoljson s')
      end
  end.

(** ** JSON documents *)

Inductive json :=
  | JNull
  | JBool (b : bool)
  | JNumber (n : Z)
  | JString (s : string)
  | JArray (items : list json)
  | JObject (props : list (string * json)).

(** An own property of a parsed object. *)
Fixpoint ownProperty (k : string) (props : list (string * json)) : option json :=
  match props with
  | [] => None
  | (k', v) :: props' => if String.eqb k k' then Some v else ownProperty k props'
  end.

Definition isDigit (c : ascii) : bool :=
  (48 <=? nat_of_ascii c)%nat && (nat_of_ascii c <=? 57)%nat.

Fixpoint digitsValue (acc : nat) (s : string) : option nat :=
  match s with
  | EmptyString => Some acc
  | String c s' =>
      if isDigit c then digitsValue (10 * acc + (nat_of_ascii c - 48)) s'
      else None
  end.

(** A property key that is a canonical array index: decimal digits without
    a leading zero. *)
Definition arrayIndex (k : string) : option nat :=
  match k with
  | EmptyString => None
  | String "0" EmptyString => Some 0%nat
  | String "0" _ => None
  | _ => digitsValue 0 k
  end.

Fixpoint charAt (n : nat) (s : string) : option string :=
  match n, s with
  | _, EmptyString => None
  | O, String c _ => Some (String c EmptyString)
  | S n', String _ s' => charAt n' s'
  end.

(** [v[k]], where [None] is [undefined].  Reading a property of
    [undefined] or [null] throws a [TypeError].  Besides own properties and
    indexed elements, a value has only inherited properties whose values
    are functions, objects or numbers ([length]); the only caller treats
    these exactly as it treats [undefined] (see [getLongVersion]), so they
    read as [undefined] here. *)
Definition getProp (v : option json) (k : string) : outcome (option json) :=
  match v with
  | None | Some JNull =>
      Throw (Error "Cannot read properties of undefined")
  | Some (JObject props) => Ok (ownProperty k props)
  | Some (JArray items) => Ok (arrayIndex k ≫= λ i, items !! i)
  | Some (JString s) => Ok (arrayIndex k ≫= λ i, JString <$> charAt i s)
  | Some (JBool _) | Some (JNumber _) => Ok None
  end.

(** Decimal rendering of an integer. *)
Definition decimal (n : Z) : string := pretty n.

(** [`${v}`]: string conversion.  An array is its elements joined by
    commas, where [null] elements are empty. *)
Fixpoint toString (v : json) : string :=
  match v with
  | JNull => "null"
  | JBool true => "true"
  | JBool false => "false"
  | JNumber n => decimal n
  | JString s => s
  | JObject _ => "[object Object]"
  | JArray items =>
      (fix join (items : list json) : string :=
         match items with
         | [] => ""
         | x :: items' =>
             let sx := match x with JNull => "" | _ => toString x end in
             match items' with
             | [] => sx
             | _ :: _ => sx +:+ "," +:+ join items'
             end
         end) items
  end.

(** ** Verification back ends *)

(** The optimizer settings object of a request, shared by reference with
    both back-end requests. *)
Record Optimizer := {
  enabled : bool;
  runs : Z;
  details : option (option bool)
}.

(** Source path to source content. *)
Abbreviation Sources := (gmap string string).

Module TenderlyVerifier.

Record SolcSettings := { optimizer : Optimizer }.

Record Solc := {
  version : string;
  sources : Sources;
  settings : SolcSettings
}.

Record Config := { mode : string }.

(** [VerificationRequest] of the Tenderly SDK, as far as it is filled in. *)
Record VerificationRequest := {
  contractToVerify : string;
  solc : Solc;
  config : Config
}.

(** [TenderlyVerifier]: [verifyContract(address, contractName, request)]. *)
Record TenderlyVerifier (W : Type) := {
  verifyContract : string → string → VerificationRequest → W → outcome unit * W
}.
Arguments verifyContract {W} _ _ _ _ _.

End TenderlyVerifier.

Module EtherscanVerifier.

Record CompilerSettings := {
  optimizer : Optimizer;
  outputSelection : list (string * list (string * list string));
  remappings : option (list string)
}.

Record CompilerInput := {
  language : string;
  sources : Sources;
  settings : CompilerSettings
}.

Record EtherscanVerificationRequest := {
  contractToVerify : string;
  version : string;
  compilerInput : CompilerInput;
  waitForSuccess : bool
}.

(** [EtherscanVerifier]: [verifyContract(address, request)]. *)
Record EtherscanVerifier (W : Type) := {
  verifyContract : string → EtherscanVerificationRequest → W → outcome unit * W
}.
Arguments verifyContract {W} _ _ _ _.

End EtherscanVerifier.

(** What [axios.get] resolves to. *)
Record AxiosResponse := {
  status : Z;
  response_data : json
}.

(** ** ContractVerifier *)

Module ContractVerifier.

Record Settings := {
  optimizer : Optimizer;
  libraries : option (gmap string (gmap string string));
  remappings : option (list string)
}.

(** [ContractVerificationRequest] (lines 22-44). *)
Record ContractVerificationRequest := {
  contractToVerify : string;
  version : string;
  sources : Sources;
  settings : Settings;
  waitForSuccess : bool
}.

Definition COMPILERS_LIST_URL : string :=
  "https://solc-bin.ethereum.org/bin/list.json".

(** The external calls a verifier makes, in the order it makes them. *)
Inductive Event :=
  | EvHttpGet (url : string)
  | EvLogError (msg : string)
  | EvTenderly (address contractName : string)
      (request : TenderlyVerifier.VerificationRequest)
  | EvEtherscan (address : string)
      (request : EtherscanVerifier.EtherscanVerificationRequest).

Record State (W : Type) := mkState {
  world : W;
  trace : list Event
}.
Arguments mkState {W} _ _.
Arguments world {W} _.
Arguments trace {W} _.

Definition isRegistryCall (ev : Event) : bool :=
  match ev with
  | EvHttpGet _ => true
  | _ => false
  end.

(** The two back ends: A is Tenderly, B is Etherscan. *)
Inductive Backend := BackendA | BackendB.

(** The back-end submissions among a list of events, in order. *)
Fixpoint backendCalls (evs : list Event) : list Backend :=
  match evs with
  | [] => []
  | EvTenderly _ _ _ :: evs' => BackendA :: backendCalls evs'
  | EvEtherscan _ _ :: evs' => BackendB :: backendCalls evs'
  | _ :: evs' => backendCalls evs'
  end.

(** The fields of a constructed verifier; [logger] tells whether the
    optional logger was given. *)
Record ContractVerifier (W Signer : Type) := {
  tenderlyVerifier : TenderlyVerifier.TenderlyVerifier W;
  etherscanVerifier : EtherscanVerifier.EtherscanVerifier W;
  signer : Signer;
  logger : bool
}.
Arguments tenderlyVerifier {W Signer} _.
Arguments etherscanVerifier {W Signer} _.
Arguments signer {W Signer} _.
Arguments logger {W Signer} _.

Section Verifier.

Context {W Signer Args Contract : Type}.

(** [axios.get(url)] *)
Variable axios_get : string → W → outcome AxiosResponse * W.
Variable this : ContractVerifier W Signer.

(** An awaited call on the outside world. *)
Definition call {A} (ev : Event) (f : W → outcome A * W) : M (State W) A :=
  λ s, let '(r, w) := f (world s) in (r, mkState w (trace s ++ [ev])).

(** [this.logger?.error(msg)] *)
Definition logError (msg : string) : M (State W) unit :=
  if logger this then λ s, (Ok tt, mkState (world s) (trace s ++ [EvLogError msg]))
  else ret tt.

(** [validateBytecode] (lines 63-72) *)
Definition validateBytecode
    (contractFactory : Signer → ContractFactory Args Contract)
    (expectedBytecode : string) : outcome unit :=
  let factory := contractFactory (signer this) in
  if negb (String.eqb (bytecode factory) expectedBytecode) then
    Throw (Error "Bytecode mismatch")
  else Ok tt.

(** [getLongVersion] (lines 146-177).  The value found in the registry
    must be a string for [replace] to be callable; on anything else the
    call is a [TypeError]. *)
Definition getLongVersion (shortVersion : string) : M (State W) string :=
  try_catch
    (let! response :=
       call (EvHttpGet COMPILERS_LIST_URL) (axios_get COMPILERS_LIST_URL) in
     let responseText := response_data response in
     if (status response <? 200)%Z || (299 <? status response)%Z then
       throw (Error ("Unabled to get solidity compiler versions. "
                     +:+ toString responseText))
     else
       let! releases := lift (getProp (Some responseText) "releases") in
       let! fullVersion := lift (getProp releases shortVersion) in
       match fullVersion with
       | None | Some (JString EmptyString) =>
           throw (Error ("Unabled to find full solidity compiler version "
                         +:+ shortVersion))
       | Some (JString fullVersion) => ret (replaceSoljson fullVersion)
       | Some _ => throw (Error "fullVersion.replace is not a function")
       end)
    (λ error,
       let errMsg := "Unable to determine solidity compiler version" in
       logError errMsg ;;;
       throw (Error errMsg)).

(** Lines 78-89 of [verifyContract]: the short and the long version.
    [split] never returns an empty array, so its element 0 exists. *)
Definition normalizeVersion (version : string) : M (State W) (string * string) :=
  let shortVersion := version in
  let longVersion := version in
  if includes "+" version then
    ret (default EmptyString (head (split "+" version)), longVersion)
  else
    let! longVersion := getLongVersion version in
    ret (shortVersion, longVersion).

(** The request built for Tenderly (lines 92-105). *)
Definition tenderVerificationRequest
    (verificationRequest : ContractVerificationRequest) (shortVersion : string)
    : TenderlyVerifier.VerificationRequest :=
  {| TenderlyVerifier.contractToVerify := contractToVerify verificationRequest;
     TenderlyVerifier.solc :=
       {| TenderlyVerifier.version := shortVersion;
          TenderlyVerifier.sources := sources verificationRequest;
          TenderlyVerifier.settings :=
            {| TenderlyVerifier.optimizer :=
                 optimizer (settings verificationRequest) |} |};
     TenderlyVerifier.config := {| TenderlyVerifier.mode := "public" |} |}.

(** The request built for Etherscan (lines 107-132). *)
Definition etherscanVerificationRequest
    (verificationRequest : ContractVerificationRequest) (longVersion : string)
    : EtherscanVerifier.EtherscanVerificationRequest :=
  {| EtherscanVerifier.contractToVerify := contractToVerify verificationRequest;
     EtherscanVerifier.version := longVersion;
     EtherscanVerifier.compilerInput :=
       {| EtherscanVerifier.language := "Solidity";
          EtherscanVerifier.sources := sources verificationRequest;
          EtherscanVerifier.settings :=
            {| EtherscanVerifier.optimizer :=
                 optimizer (settings verificationRequest);
               EtherscanVerifier.outputSelection :=
                 [("*",
                   [("*", ["abi"; "evm.bytecode"; "evm.deployedBytecode";
                           "evm.methodIdentifiers"; "metadata"]);
                    ("", ["ast"])])];
               EtherscanVerifier.remappings :=
                 remappings (settings verificationRequest) |} |};
     EtherscanVerifier.waitForSuccess := waitForSuccess verificationRequest |}.

(** [verifyContract] (lines 74-143) *)
Definition verifyContract (address : string)
    (verificationRequest : ContractVerificationRequest) : M (State W) unit :=
  let! versions := normalizeVersion (version verificationRequest) in
  let shortVersion := fst versions in
  let longVersion := snd versions in
  let tenderly := tenderVerificationRequest verificationRequest shortVersion in
  let etherscan := etherscanVerificationRequest verificationRequest longVersion in
  call (EvTenderly address (contractToVerify verificationRequest) tenderly)
    (TenderlyVerifier.verifyContract (tenderlyVerifier this) address
       (contractToVerify verificationRequest) tenderly) ;;;
  call (EvEtherscan address etherscan)
    (EtherscanVerifier.verifyContract (etherscanVerifier this) address etherscan).

End Verifier.

(** The error every failure inside [getLongVersion] is replaced by. *)
Abbreviation lookupFailure :=
  (Error "Unable to determine solidity compiler version").

End ContractVerifier.

(** ** Sample environments

    Small closed worlds on which the model runs, used to exercise the
    theorems below on concrete calls.  The world of the deployer counts the
    contracts the factory has deployed; the world of the verifier tells
    whether the network is reachable. *)

(** A stand-in for the hash with the digest length of keccak256. *)
Definition sampleHash (b : bytes) : bytes := take 32 (b ++ repeat x00 32).

Definition sampleEthers : EthersUtils :=
  {| keccak256 := sampleHash;
     getAddress := λ b, if (length b =? 20)%nat then Ok (hexlify b)
                        else Throw (Error "invalid address") |}.

(** The address of the EIP-2470 singleton factory. *)
Definition sampleFactoryAddress : bytes :=
  [xce; x00; x42; xb8; x68; x30; x00; x00; xd4; x4a;
   x59; x00; x4d; xa5; x4a; x00; x5f; xfd; xcf; x9f].

(** A chain on which every address has code once anything was deployed. *)
Definition sampleProvider : Provider nat :=
  {| getCode := λ _ n, (Ok (if (0 <? n)%nat then "0x6080" else "0x"), n);
     getBlock := λ _ n, (Ok {| gasLimit := 30000000 |}, n) |}.

(** A factory whose transactions are mined and create the contract. *)
Definition sampleFactory : SingletonFactory.SingletonFactoryContract nat :=
  {| SingletonFactory.address := sampleFactoryAddress;
     SingletonFactory.deploy := λ _ _ _ n,
       (Ok {| wait := λ n, (Ok tt, S n) |}, n) |}.

(** A factory whose transactions are mined without creating anything. *)
Definition idleFactory : SingletonFactory.SingletonFactoryContract nat :=
  {| SingletonFactory.address := sampleFactoryAddress;
     SingletonFactory.deploy := λ _ _ _ n,
       (Ok {| wait := λ n, (Ok tt, n) |}, n) |}.

Definition sampleDeployer : SingletonDeployer.SingletonDeployer nat unit :=
  {| SingletonDeployer.signer := tt;
     SingletonDeployer.logger := true;
     SingletonDeployer.provider := sampleProvider;
     SingletonDeployer.singletonFactory := sampleFactory |}.

Definition idleDeployer : SingletonDeployer.SingletonDeployer nat unit :=
  {| SingletonDeployer.signer := tt;
     SingletonDeployer.logger := true;
     SingletonDeployer.provider := sampleProvider;
     SingletonDeployer.singletonFactory := idleFactory |}.

(** A contract factory without constructor arguments; a handle is the
    address it is attached to. *)
Definition sampleInitCode : bytes := [x60; x80; x60; x40; x52].

Definition sampleContract (_ : unit) : ContractFactory unit string :=
  {| bytecode := "0x6080604052";
     getDeployTransaction := λ _, Ok {| data := Some sampleInitCode |};
     attach := λ address, address |}.

Definition sampleAddress : string :=
  Eval vm_compute in
    match SingletonDeployer.addressFromData sampleEthers sampleDeployer
            sampleInitCode with
    | Ok a => a
    | Throw _ => EmptyString
    end.

(** The caller's transaction request at location 1: [{ value: 0n }]. *)
Definition sampleRequest : TransactionRequest := {[ "value" := JsBigInt 0 ]}.

Definition sampleState (n : nat) : SingletonDeployer.State nat :=
  SingletonDeployer.mkState n {[ 1%positive := sampleRequest ]} [].

(** A registry document, served when the world is online. *)
Definition sampleRegistry : json :=
  JObject
    [("builds", JArray []);
     ("releases",
      JObject [("v0.8.18", JString "soljson-v0.8.18+commit.87f61d96.js");
               ("v0.8.19", JString "")])].

Definition sampleAxios (url : string) (online : bool)
    : outcome AxiosResponse * bool :=
  if online then (Ok {| status := 200; response_data := sampleRegistry |}, online)
  else (Throw (Error "getaddrinfo ENOTFOUND solc-bin.ethereum.org"), online).

(** A verifier whose Tenderly project rejects every submission. *)
Definition sampleVerifier : ContractVerifier.ContractVerifier bool unit :=
  {| ContractVerifier.tenderlyVerifier :=
       {| TenderlyVerifier.verifyContract := λ _ _ _ w,
            (Throw (Error "Tenderly: project not found"), w) |};
     ContractVerifier.etherscanVerifier :=
       {| EtherscanVerifier.verifyContract := λ _ _ w, (Ok tt, w) |};
     ContractVerifier.signer := tt;
     ContractVerifier.logger := true |}.

Definition sampleVerificationRequest
    : ContractVerifier.ContractVerificationRequest :=
  {| ContractVerifier.contractToVerify := "Counter.sol:CounterWithLogs";
     ContractVerifier.version := "v0.8.18+commit.87f61d96";
     ContractVerifier.sources := {[ "Counter.sol" := "contract CounterWithLogs {}" ]};
     ContractVerifier.settings :=
       {| ContractVerifier.optimizer :=
            {| enabled := false; runs := 200; details := None |};
          ContractVerifier.libraries := None;
          ContractVerifier.remappings := None |};
     ContractVerifier.waitForSuccess := true |}.

Definition sampleVerifierState (online : bool) : ContractVerifier.State bool :=
  ContractVerifier.mkState online [].

(** ** Construction and whole runs *)

Section Construction.

Context {W Signer : Type}.

(** [signer.provider], which may be [undefined], and
    [new SingletonFactoryContract(signer)], whose class is declared in
    another file. *)
Variable providerOf : Signer → option (Provider W).
Variable newSingletonFactoryContract :
  Signer → SingletonFactory.SingletonFactoryContract W.

(** The constructor of [SingletonDeployer] (lines 16-28). *)
Definition newSingletonDeployer (signer : Signer) (logger : bool)
    (singletonFactory : option (SingletonFactory.SingletonFactoryContract W))
    : outcome (SingletonDeployer.SingletonDeployer W Signer) :=
  match providerOf signer with
  | None => Throw (Error "Signer must have a provider")
  | Some provider =>
      Ok {| SingletonDeployer.signer := signer;
            SingletonDeployer.logger := logger;
            SingletonDeployer.provider := provider;
            SingletonDeployer.singletonFactory :=
              match singletonFactory with
              | Some factory => factory
              | None => newSingletonFactoryContract signer
              end |}
  end.

End Construction.

(** The log lines among the events of a deployer. *)
Definition isLogLine (ev : SingletonDeployer.Event) : bool :=
  match ev with
  | SingletonDeployer.EvLog _ | SingletonDeployer.EvLogError _ => true
  | _ => false
  end.

(** The calls on the provider, the factory and the pending transaction
    among a list of events, in order. *)
Definition externalCalls (evs : list SingletonDeployer.Event)
    : list SingletonDeployer.Event :=
  List.filter (λ ev, negb (isLogLine ev)) evs.

Definition isBlockQuery (ev : SingletonDeployer.Event) : bool :=
  match ev with
  | SingletonDeployer.EvGetBlock _ => true
  | _ => false
  end.

(** A verification request with other library bindings. *)
Definition setLibraries (libraries : option (gmap string (gmap string string)))
    (verificationRequest : ContractVerifier.ContractVerificationRequest)
    : ContractVerifier.ContractVerificationRequest :=
  {| ContractVerifier.contractToVerify :=
       ContractVerifier.contractToVerify verificationRequest;
     ContractVerifier.version := ContractVerifier.version verificationRequest;
     ContractVerifier.sources := ContractVerifier.sources verificationRequest;
     ContractVerifier.settings :=
       {| ContractVerifier.optimizer :=
            ContractVerifier.optimizer
              (ContractVerifier.settings verificationRequest);
          ContractVerifier.libraries := libraries;
          ContractVerifier.remappings :=
            ContractVerifier.remappings
              (ContractVerifier.settings verificationRequest) |};
     ContractVerifier.waitForSuccess :=
       ContractVerifier.waitForSuccess verificationRequest |}.

(** ** More sample environments *)

Definition deployerOver (provider : Provider nat)
    (factory : SingletonFactory.SingletonFactoryContract nat)
    : SingletonDeployer.SingletonDeployer nat unit :=
  {| SingletonDeployer.signer := tt;
     SingletonDeployer.logger := true;
     SingletonDeployer.provider := provider;
     SingletonDeployer.singletonFactory := factory |}.

(** A provider that cannot be reached at all. *)
Definition offlineProvider : Provider nat :=
  {| getCode := λ _ n, (Throw (Error "could not detect network"), n);
     getBlock := λ _ n, (Throw (Error "could not detect network"), n) |}.

(** A provider that answers code queries but not block queries. *)
Definition blocklessProvider : Provider nat :=
  {| getCode := λ _ n, (Ok "0x", n);
     getBlock := λ _ n, (Throw (Error "missing response"), n) |}.

(** A factory whose call is rejected before a transaction exists. *)
Definition rejectingFactory : SingletonFactory.SingletonFactoryContract nat :=
  {| SingletonFactory.address := sampleFactoryAddress;
     SingletonFactory.deploy := λ _ _ _ n,
       (Throw (Error "insufficient funds"), n) |}.

(** A factory whose transaction reverts. *)
Definition revertingFactory : SingletonFactory.SingletonFactoryContract nat :=
  {| SingletonFactory.address := sampleFactoryAddress;
     SingletonFactory.deploy := λ _ _ _ n,
       (Ok {| wait := λ n, (Throw (Error "transaction failed"), n) |}, n) |}.

(** An interface-only factory: no creation bytecode. *)
Definition abstractContract (_ : unit) : ContractFactory unit string :=
  {| bytecode := "0x";
     getDeployTransaction := λ _, Ok {| data := None |};
     attach := λ address, address |}.

(** Heaps whose object 1 has a [gasLimit]: the [BigNumber] zero, and the
    number zero. *)
Definition bigZeroGasState (n : nat) : SingletonDeployer.State nat :=
  SingletonDeployer.mkState n
    {[ 1%positive := {[ "gasLimit" := JsBigNumber 0 ]} ]} [].

Definition numberZeroGasState (n : nat) : SingletonDeployer.State nat :=
  SingletonDeployer.mkState n
    {[ 1%positive := {[ "gasLimit" := JsNumber 0 ]} ]} [].

(** A verifier whose two back ends accept everything, and one whose
    Etherscan key is refused. *)
Definition acceptingVerifier : ContractVerifier.ContractVerifier bool unit :=
  {| ContractVerifier.tenderlyVerifier :=
       {| TenderlyVerifier.verifyContract := λ _ _ _ w, (Ok tt, w) |};
     ContractVerifier.etherscanVerifier :=
       {| EtherscanVerifier.verifyContract := λ _ _ w, (Ok tt, w) |};
     ContractVerifier.signer := tt;
     ContractVerifier.logger := true |}.

Definition refusedVerifier : ContractVerifier.ContractVerifier bool unit :=
  {| ContractVerifier.tenderlyVerifier :=
       {| TenderlyVerifier.verifyContract := λ _ _ _ w, (Ok tt, w) |};
     ContractVerifier.etherscanVerifier :=
       {| EtherscanVerifier.verifyContract := λ _ _ w,
            (Throw (Error "Invalid API Key"), w) |};
     ContractVerifier.signer := tt;
     ContractVerifier.logger := true |}.

(** The sample request with the short version. *)
Definition shortVersionRequest : ContractVerifier.ContractVerificationRequest :=
  {| ContractVerifier.contractToVerify := "Counter.sol:CounterWithLogs";
     ContractVerifier.version := "v0.8.18";
     ContractVerifier.sources := {[ "Counter.sol" := "contract CounterWithLogs {}" ]};
     ContractVerifier.settings :=
       {| ContractVerifier.optimizer :=
            {| enabled := false; runs := 200; details := None |};
          ContractVerifier.libraries := None;
          ContractVerifier.remappings := None |};
     ContractVerifier.waitForSuccess := true |}.

(** A registry with entries of other shapes. *)
Definition oddRegistry : json :=
  JObject
    [("releases",
      JObject [("v0.4.0", JNumber 4);
               ("v0.5.0", JString "v0.5.0+commit.1d4f565a")])].

Definition oddAxios (url : string) (online : bool)
    : outcome AxiosResponse * bool :=
  (Ok {| status := 200; response_data := oddRegistry |}, online).

(** * Properties *)

(** ** Strings *)

Lemma append_cons (a : ascii) (s t : string) :
  String a s +:+ t = String a (s +:+ t).
Proof. reflexivity. Qed.

Lemma append_nil_r (s : string) : s +:+ EmptyString = s.
Proof.
  induction s as [|a s IH]; [reflexivity|]. rewrite append_cons, IH. reflexivity.
Qed.

Lemma startsWith_append (needle s : string) :
  startsWith needle (needle +:+ s) = true.
Proof.
  induction needle as [|a needle IH]; [reflexivity|].
  rewrite append_cons. simpl. rewrite Ascii.eqb_refl. exact IH.
Qed.

Lemma includes_here (needle s : string) :
  startsWith needle s = true → includes needle s = true.
Proof. intros H. destruct s; simpl; rewrite H; reflexivity. Qed.

Lemma includes_append_r (needle pre s : string) :
  includes needle s = true → includes needle (pre +:+ s) = true.
Proof.
  intros H. induction pre as [|a pre IH]; [exact H|].
  rewrite append_cons. simpl. rewrite IH. apply orb_true_r.
Qed.

(** A string occurs in every string built around it. *)
Lemma includes_infix (needle pre post : string) :
  includes needle (pre +:+ needle +:+ post) = true.
Proof.
  apply includes_append_r, includes_here, startsWith_append.
Qed.

Lemma includes_suffix (needle pre : string) :
  includes needle (pre +:+ needle) = true.
Proof.
  rewrite <- (append_nil_r needle) at 2. apply includes_infix.
Qed.

(** ** Hex strings and packing *)

Lemma hexBody_length (b : bytes) : String.length (hexBody b) = 2 * length b.
Proof.
  induction b as [|x b IH]; simpl; [reflexivity | rewrite IH; lia].
Qed.

Lemma hexlify_length (b : bytes) : String.length (hexlify b) = 2 + 2 * length b.
Proof.
  change (hexlify b) with (String "0" (String "x" (hexBody b))).
  simpl. rewrite hexBody_length. lia.
Qed.

(** A code string denotes non-empty bytes exactly when it is longer than
    [0x]. *)
Lemma hexlify_nonempty (b : bytes) : 2 < String.length (hexlify b) ↔ b ≠ [].
Proof.
  rewrite hexlify_length. destruct b; simpl; split; intros H; try lia; congruence.
Qed.

Lemma lastn_length {A} (n : nat) (l : list A) :
  n ≤ length l → length (lastn n l) = n.
Proof. intros H. unfold lastn. rewrite length_drop. lia. Qed.

Lemma hexDataSlice_12_last20 (digest : bytes) :
  length digest = 32 → hexDataSlice digest 12 = lastn 20 digest.
Proof. intros H. unfold hexDataSlice, lastn. rewrite H. reflexivity. Qed.

(** Packing [bytes1, address, bytes32, bytes32] is plain concatenation when
    the two words have 32 bytes. *)
Lemma solidityPack_create2 (b1 : byte) (a salt h : bytes) :
  length salt = 32 → length h = 32 →
  solidityPack [bytesN 1; address_t; bytesN 32; bytesN 32] [[b1]; a; salt; h]
  = Ok ([b1] ++ a ++ salt ++ h).
Proof.
  intros Hs Hh. unfold solidityPack. simpl. rewrite Hs, Hh. simpl.
  rewrite app_nil_r. reflexivity.
Qed.

(** ** SingletonDeployer *)

Section DeployerProperties.

Import SingletonDeployer.

Context {W Signer Args Contract : Type}.
Variable ethers : EthersUtils.
Variable this : SingletonDeployer W Signer.

(** C1.  With a 32-byte digest, [addressFromData] renders the last 20 bytes
    of [keccak256(0xff ‖ factory address ‖ 32 zero bytes ‖ keccak256(data))]
    as an address.  The result depends on the deployer only through the
    factory address: any deployer over the same factory address, on
    whatever chain, derives the same address from the same bytecode. *)
Theorem addressFromData_create2 :
  (∀ b, length (keccak256 ethers b) = 32) →
  ∀ data : bytes,
    let preimage :=
      [xff] ++ SingletonFactory.address (singletonFactory this)
            ++ repeat x00 32 ++ keccak256 ethers data in
    addressFromData ethers this data
      = getAddress ethers (lastn 20 (keccak256 ethers preimage))
    ∧ length (lastn 20 (keccak256 ethers preimage)) = 20
    ∧ ∀ (W' Signer' : Type) (other : SingletonDeployer W' Signer') (data' : bytes),
        data' = data →
        SingletonFactory.address (singletonFactory other)
          = SingletonFactory.address (singletonFactory this) →
        addressFromData ethers other data' = addressFromData ethers this data.
Proof.
  intros Hlen data preimage. split; [|split].
  - unfold addressFromData.
    rewrite solidityPack_create2 by (reflexivity || apply Hlen).
    rewrite hexDataSlice_12_last20 by apply Hlen. reflexivity.
  - apply lastn_length. rewrite Hlen. lia.
  - intros W' Signer' other data' -> Haddr.
    unfold addressFromData. rewrite Haddr. reflexivity.
Qed.


Ltac run :=
  unfold deploy, upTheGas, factoryDeploy, call, log, logError, emit,
    readField, writeField, alloc, bind, ret, throw, lift; simpl.

(** The short-circuit of [deploy], for any code string longer than [0x]. *)
Lemma deploy_short_circuit (name : string)
    (contract : Signer → ContractFactory Args Contract)
    (txParams : option loc) (args : Args) (s : State W)
    (dtx : DeployTransaction) (d : bytes) (address code : string) (w1 : W) :
  getDeployTransaction (contract (signer this)) args = Ok dtx →
  data dtx = Some d →
  addressFromData ethers this d = Ok address →
  getCode (provider this) address (world s) = (Ok code, w1) →
  2 < String.length code →
  ∃ (s' : State W) (evs : list Event),
    deploy ethers this name contract txParams args s
      = (Ok (attach (contract (signer this)) address), s')
    ∧ world s' = w1
    ∧ heap s' = match txParams with
                | Some _ => heap s
                | None => <[fresh (dom (heap s)) := ∅]> (heap s)
                end
    ∧ trace s' = trace s ++ evs
    ∧ Forall (λ ev, isTransaction ev = false) evs.
Proof.
  intros Hdtx Hd Haddr Hcode Hlen.
  apply Nat.ltb_lt in Hlen.
  destruct txParams as [l|]; run; destruct (logger this); simpl;
    rewrite Hdtx; simpl; rewrite Hd, Haddr; simpl; rewrite Hcode; simpl;
    rewrite Hlen; simpl;
    eexists _, _; (split; [reflexivity|]); simpl;
    repeat split; try reflexivity;
    rewrite <- ?app_assoc; try reflexivity;
    try (rewrite app_nil_r; reflexivity);
    repeat constructor.
Qed.


(** Writing a property of a live object replaces the object in the heap. *)
Lemma alter_live (h : gmap loc TransactionRequest) (l : loc)
    (obj : TransactionRequest) (f : TransactionRequest → TransactionRequest) :
  h !! l = Some obj → alter f l h = <[l := f obj]> h.
Proof.
  intros Hl. apply map_eq. intros j. destruct (decide (l = j)) as [<-|Hne].
  - rewrite lookup_alter_eq, lookup_insert_eq, Hl. reflexivity.
  - rewrite lookup_alter_ne, lookup_insert_ne by done. reflexivity.
Qed.

(** What "Up the gas" does to a live request object. *)
Lemma upTheGas_live (l : loc) (obj : TransactionRequest) (s : State W) :
  heap s !! l = Some obj →
  upTheGas this l s =
    if falsy (obj !! "gasLimit") then
      match getBlock (provider this) "latest" (world s) with
      | (Ok b, w) =>
          (Ok tt, mkState w (<[l := <["gasLimit" := estimate b]> obj]> (heap s))
                    (trace s ++ [EvGetBlock "latest"]))
      | (Throw e, w) =>
          (Throw e, mkState w (heap s) (trace s ++ [EvGetBlock "latest"]))
      end
    else (Ok tt, s).
Proof.
  intros Hl. run. rewrite Hl. simpl.
  destruct (falsy (obj !! "gasLimit")); [|reflexivity].
  destruct (getBlock (provider this) "latest" (world s)) as [[b|e] w]; simpl;
    [|reflexivity].
  rewrite (alter_live _ _ obj) by exact Hl. reflexivity.
Qed.

(** When the first code query finds nothing, [deploy] continues with the
    sending path. *)
Lemma deploy_not_deployed (name : string)
    (contract : Signer → ContractFactory Args Contract)
    (txParams : option loc) (args : Args) (s : State W)
    (dtx : DeployTransaction) (d : bytes) (address code : string) (w1 : W) :
  getDeployTransaction (contract (signer this)) args = Ok dtx →
  data dtx = Some d →
  addressFromData ethers this d = Ok address →
  getCode (provider this) address (world s) = (Ok code, w1) →
  String.length code ≤ 2 →
  deploy ethers this name contract txParams args s =
    (upTheGas this (paramLoc txParams s) ;;;
     let! tx := factoryDeploy this d HashZero (paramLoc txParams s) in
     call EvWait (wait tx) ;;;
     let! code' :=
       call (EvGetCode address) (getCode (provider this) address) in
     if (String.length code' <=? 2)%nat then
       let errMsg := "Failed to deploy " +:+ name +:+ " at " +:+ address in
       logError this errMsg ;;;
       throw (Error errMsg)
     else ret (attach (contract (signer this)) address))
      (mkState w1 (paramHeap txParams s)
         (trace s ++ (if logger this then [EvLog ("Deploying " +:+ name)] else [])
                  ++ [EvGetCode address])).
Proof.
  intros Hdtx Hd Haddr Hcode Hlen.
  assert (Hlen' : (2 <? String.length code)%nat = false)
    by (apply Nat.ltb_ge; exact Hlen).
  unfold deploy.
  unfold bind at 1. destruct txParams as [l|]; simpl;
    unfold bind at 1; unfold log; destruct (logger this); simpl;
    unfold bind at 1; unfold lift at 1; rewrite Hdtx; rewrite Hd;
    unfold bind at 1; unfold lift at 1; rewrite Haddr;
    unfold bind at 1; unfold call at 1; simpl; rewrite Hcode; rewrite Hlen';
    rewrite <- ?app_assoc; reflexivity.
Qed.


Lemma param_live (txParams : option loc) (obj : TransactionRequest) (s : State W) :
  match txParams with Some l => heap s !! l = Some obj | None => obj = ∅ end →
  paramHeap txParams s !! paramLoc txParams s = Some obj.
Proof.
  destruct txParams as [l|]; intros H; [exact H|].
  subst obj. apply lookup_insert_eq.
Qed.

(** C2.  When the first code query for the derived address answers
    non-empty bytes, [deploy] returns the handle attached to that address
    and none of the external calls it made sends a transaction: the
    factory's [deploy] is not invoked. *)
Theorem deploy_skips_deployed (name : string)
    (contract : Signer → ContractFactory Args Contract)
    (txParams : option loc) (args : Args) (s : State W)
    (dtx : DeployTransaction) (d : bytes) (address code : string)
    (existing : bytes) (w1 : W) :
  getDeployTransaction (contract (signer this)) args = Ok dtx →
  data dtx = Some d →
  addressFromData ethers this d = Ok address →
  getCode (provider this) address (world s) = (Ok code, w1) →
  code = hexlify existing →
  existing ≠ [] →
  ∃ (s' : State W) (evs : list Event),
    deploy ethers this name contract txParams args s
      = (Ok (attach (contract (signer this)) address), s')
    ∧ trace s' = trace s ++ evs
    ∧ Forall (λ ev, isTransaction ev = false) evs.
Proof.
  intros Hdtx Hd Haddr Hcode -> Hne.
  apply hexlify_nonempty in Hne.
  destruct (deploy_short_circuit name contract txParams args s dtx d address
              _ w1 Hdtx Hd Haddr Hcode Hne)
    as (s' & evs & Hrun & _ & _ & Htrace & Hno).
  exists s', evs. auto.
Qed.

(** C3.  On the sending path, when the factory call and the wait both
    complete and the second code query still answers a string no longer
    than [0x], [deploy] throws [Failed to deploy <name> at <address>]; no
    handle is returned. *)
Theorem deploy_unconfirmed_throws (name : string)
    (contract : Signer → ContractFactory Args Contract)
    (txParams : option loc) (args : Args) (s : State W)
    (dtx : DeployTransaction) (d : bytes) (address code1 code2 : string)
    (obj overrides : TransactionRequest) (w1 w2 w3 w4 w5 : W)
    (tx : ContractTransaction W) :
  getDeployTransaction (contract (signer this)) args = Ok dtx →
  data dtx = Some d →
  addressFromData ethers this d = Ok address →
  match txParams with Some l => heap s !! l = Some obj | None => obj = ∅ end →
  getCode (provider this) address (world s) = (Ok code1, w1) →
  String.length code1 ≤ 2 →
  (falsy (obj !! "gasLimit") = true
     ∧ (∃ b, getBlock (provider this) "latest" w1 = (Ok b, w2)
             ∧ overrides = <["gasLimit" := estimate b]> obj)
   ∨ falsy (obj !! "gasLimit") = false ∧ w2 = w1 ∧ overrides = obj) →
  SingletonFactory.deploy (singletonFactory this) d HashZero overrides w2
    = (Ok tx, w3) →
  wait tx w3 = (Ok tt, w4) →
  getCode (provider this) address w4 = (Ok code2, w5) →
  String.length code2 ≤ 2 →
  ∃ (e : JsError) (s' : State W),
    deploy ethers this name contract txParams args s = (Throw e, s')
    ∧ message e = "Failed to deploy " +:+ name +:+ " at " +:+ address
    ∧ includes name (message e) = true
    ∧ includes address (message e) = true.
Proof.
  intros Hdtx Hd Haddr Hobj Hcode1 Hlen1 Hgas Hsend Hwait Hcode2 Hlen2.
  apply Nat.leb_le in Hlen2.
  exists (Error ("Failed to deploy " +:+ name +:+ " at " +:+ address)).
  cut (∃ s' : State W,
         deploy ethers this name contract txParams args s
         = (Throw (Error ("Failed to deploy " +:+ name +:+ " at " +:+ address)),
            s')).
  { intros [s' Hrun]. exists s'. split; [exact Hrun|]. cbn [message].
    split; [reflexivity|]. split; [apply includes_infix|].
    apply includes_append_r, includes_append_r, includes_suffix. }
  rewrite (deploy_not_deployed name contract txParams args s dtx d address
             code1 w1 Hdtx Hd Haddr Hcode1 Hlen1).
  apply param_live in Hobj.
  unfold bind at 1. rewrite (upTheGas_live _ obj) by exact Hobj.
  destruct Hgas as [[Hf (b & Hb & ->)] | (Hf & -> & ->)]; rewrite Hf; simpl.
  - rewrite Hb. run. rewrite lookup_insert_eq. simpl. rewrite Hsend. simpl.
    rewrite Hwait. simpl. rewrite Hcode2. simpl. rewrite Hlen2.
    destruct (logger this); simpl; eexists; reflexivity.
  - run. rewrite Hobj. simpl. rewrite Hsend. simpl.
    rewrite Hwait. simpl. rewrite Hcode2. simpl. rewrite Hlen2.
    destruct (logger this); simpl; eexists; reflexivity.
Qed.


(** C9.  On the sending path with no [gasLimit] in [txParams], the one
    transaction [deploy] sends is the factory call, and the gas limit in
    its overrides is [floor(blockGasLimit * 4 / 10)] of the latest block,
    whatever the factory, the wait and the confirmation do afterwards. *)
Theorem deploy_gas_estimate (name : string)
    (contract : Signer → ContractFactory Args Contract)
    (txParams : option loc) (args : Args) (s : State W)
    (dtx : DeployTransaction) (d : bytes) (address code : string)
    (obj : TransactionRequest) (b : Block) (w1 w2 : W) :
  getDeployTransaction (contract (signer this)) args = Ok dtx →
  data dtx = Some d →
  addressFromData ethers this d = Ok address →
  match txParams with Some l => heap s !! l = Some obj | None => obj = ∅ end →
  obj !! "gasLimit" = None →
  getCode (provider this) address (world s) = (Ok code, w1) →
  String.length code ≤ 2 →
  getBlock (provider this) "latest" w1 = (Ok b, w2) →
  (0 ≤ gasLimit b)%Z →
  ∃ (r : outcome Contract) (s' : State W) (evs : list Event),
    deploy ethers this name contract txParams args s = (r, s')
    ∧ trace s' = trace s ++ evs
    ∧ List.filter isTransaction evs
      = [EvFactoryDeploy d HashZero (paramLoc txParams s)
           (<["gasLimit" := JsBigNumber (gasLimit b * 4 / 10)]> obj)].
Proof.
  intros Hdtx Hd Haddr Hobj Hgas Hcode Hlen Hblock Hpos.
  assert (Hest : BigNumber_div (BigNumber_mul (gasLimit b) 4) 10
                 = (gasLimit b * 4 / 10)%Z).
  { unfold BigNumber_div, BigNumber_mul. apply Z.quot_div_nonneg; lia. }
  rewrite (deploy_not_deployed name contract txParams args s dtx d address
             code w1 Hdtx Hd Haddr Hcode Hlen).
  apply param_live in Hobj.
  unfold bind at 1. rewrite (upTheGas_live _ obj) by exact Hobj.
  rewrite Hgas. simpl. rewrite Hblock, Hest. run. rewrite lookup_insert_eq. simpl.
  destruct (SingletonFactory.deploy _ _ _ _ _) as [[tx|e] w3]; simpl.
  2: { eexists _, _, _. split; [reflexivity|]. simpl.
       split; [rewrite <- !app_assoc; reflexivity|].
       destruct (logger this); reflexivity. }
  destruct (wait tx w3) as [[[]|e] w4]; simpl.
  2: { eexists _, _, _. split; [reflexivity|]. simpl.
       split; [rewrite <- !app_assoc; reflexivity|].
       destruct (logger this); reflexivity. }
  destruct (getCode (provider this) address w4) as [[code'|e] w5]; simpl.
  2: { eexists _, _, _. split; [reflexivity|]. simpl.
       split; [rewrite <- !app_assoc; reflexivity|].
       destruct (logger this); reflexivity. }
  destruct (String.length code' <=? 2)%nat; destruct (logger this); simpl;
    eexists _, _, _; (split; [reflexivity|]); simpl;
    (split; [rewrite <- !app_assoc; reflexivity|]); reflexivity.
Qed.


End DeployerProperties.

(** ** Version strings *)

Lemma includes_plus_cons (c : ascii) (s : string) :
  includes "+" (String c s) = Ascii.eqb "+" c || includes "+" s.
Proof. simpl. rewrite andb_true_r. reflexivity. Qed.

Lemma split_nonempty (sep : ascii) (s : string) : split sep s ≠ [].
Proof.
  destruct s as [|c s]; simpl; [discriminate|].
  destruct (Ascii.eqb c sep); [discriminate|].
  destruct (split sep s); discriminate.
Qed.

(** Element 0 of [version.split('+')] is the part of [version] before its
    first [+]. *)
Lemma split_plus_head (version : string) :
  includes "+" version = true →
  ∃ rest : string,
    version = default EmptyString (head (split "+" version)) +:+ "+" +:+ rest
    ∧ includes "+" (default EmptyString (head (split "+" version))) = false.
Proof.
  induction version as [|c v IH]; [discriminate|].
  rewrite includes_plus_cons. simpl split. rewrite (Ascii.eqb_sym c).
  destruct (Ascii.eqb "+" c) eqn:Hc; simpl.
  - intros _. apply Ascii.eqb_eq in Hc. subst c. exists v. split; reflexivity.
  - intros Hv. destruct (IH Hv) as (rest & Heq & Hno).
    destruct (split "+" v) as [|piece pieces] eqn:Hsplit.
    { exfalso. exact (split_nonempty _ _ Hsplit). }
    simpl in *. exists rest. split.
    + rewrite append_cons. f_equal. exact Heq.
    + rewrite Hc, andb_false_l. simpl.
      destruct piece; simpl in *; exact Hno.
Qed.

Lemma matchStarDotJs_strips (v : string) :
  singleLine v = true → matchStarDotJs (v +:+ ".js") = Some (v, EmptyString).
Proof.
  induction v as [|c v IH]; [reflexivity|].
  simpl singleLine. intros [Hc Hv]%andb_true_iff.
  apply negb_true_iff in Hc.
  rewrite append_cons. simpl. rewrite Hc, (IH Hv). reflexivity.
Qed.

(** The replacement is not anchored, its star is greedy and its dot is not
    escaped. *)
Example replaceSoljson_leftmost_greedy :
  replaceSoljson "xxsoljson-a.jsb.js.jsonyy" = "xxa.jsb.jsonyy".
Proof. reflexivity. Qed.

Example replaceSoljson_any_character :
  replaceSoljson "soljson-v1xjs" = "v1".
Proof. reflexivity. Qed.

Example replaceSoljson_no_match :
  replaceSoljson "v0.8.18+commit.87f61d96" = "v0.8.18+commit.87f61d96".
Proof. reflexivity. Qed.

(** Stripping [soljson-] and [.js] from a file name on one line. *)
Lemma replaceSoljson_strips (v : string) :
  singleLine v = true → replaceSoljson ("soljson-" +:+ v +:+ ".js") = v.
Proof.
  intros Hv.
  change ("soljson-" +:+ v +:+ ".js")
    with (String "s" (String "o" (String "l" (String "j" (String "s"
           (String "o" (String "n" (String "-" (v +:+ ".js"))))))))).
  unfold replaceSoljson, matchSoljson. simpl.
  rewrite (matchStarDotJs_strips v Hv). apply append_nil_r.
Qed.

(** ** ContractVerifier *)

Section VerifierProperties.

Import ContractVerifier.

Context {W Signer Args Contract : Type}.
Variable axios_get : string → W → outcome AxiosResponse * W.
Variable this : ContractVerifier W Signer.

#[local] Arguments getProp : simpl never.

Ltac run :=
  unfold verifyContract, normalizeVersion, getLongVersion, try_catch, call,
    logError, bind, ret, throw, lift; simpl.

(** The registry call is the first thing [getLongVersion] does, and the
    only external call besides logging. *)
Lemma getLongVersion_events (shortVersion : string) (s : State W) :
  ∃ (r : outcome string) (w : W) (evs : list Event),
    getLongVersion axios_get this shortVersion s
      = (r, mkState w (trace s ++ evs))
    ∧ backendCalls evs = [].
Proof.
  run. destruct (axios_get COMPILERS_LIST_URL (world s)) as [[resp|e] w]; simpl.
  2: { destruct (logger this); simpl; eexists _, _, _;
         (split; [rewrite <- ?app_assoc; reflexivity|]); reflexivity. }
  destruct ((status resp <? 200)%Z || (299 <? status resp)%Z); simpl.
  { destruct (logger this); simpl; eexists _, _, _;
      (split; [rewrite <- ?app_assoc; reflexivity|]); reflexivity. }
  destruct (getProp (Some (response_data resp)) "releases") as [releases|e]; simpl.
  2: { destruct (logger this); simpl; eexists _, _, _;
         (split; [rewrite <- ?app_assoc; reflexivity|]); reflexivity. }
  destruct (getProp releases shortVersion) as [[[| | |[|]| |]|]|e]; simpl;
    destruct (logger this); simpl; eexists _, _, _;
    (split; [rewrite <- ?app_assoc; reflexivity|]); reflexivity.
Qed.

(** A successful answer that maps the short version to a non-empty
    string. *)
Lemma getLongVersion_found (shortVersion fullVersion : string) (s : State W)
    (resp : AxiosResponse) (w : W) (props rels : list (string * json)) :
  axios_get COMPILERS_LIST_URL (world s) = (Ok resp, w) →
  (200 ≤ status resp ≤ 299)%Z →
  response_data resp = JObject props →
  ownProperty "releases" props = Some (JObject rels) →
  ownProperty shortVersion rels = Some (JString fullVersion) →
  fullVersion ≠ EmptyString →
  getLongVersion axios_get this shortVersion s
    = (Ok (replaceSoljson fullVersion),
       mkState w (trace s ++ [EvHttpGet COMPILERS_LIST_URL])).
Proof.
  intros Hget [Hlo Hhi] Hdata Hrel Hentry Hne. run. rewrite Hget. simpl.
  assert (Hst : (status resp <? 200)%Z || (299 <? status resp)%Z = false).
  { apply orb_false_iff. split; apply Z.ltb_ge; lia. }
  rewrite Hst, Hdata. unfold getProp at 1. rewrite Hrel.
  unfold getProp. rewrite Hentry.
  destruct fullVersion; [congruence|reflexivity].
Qed.

(** C4.  Against a registry that maps [v0.8.18] to
    [soljson-v0.8.18+commit.87f61d96.js], [getLongVersion("v0.8.18")]
    returns [v0.8.18+commit.87f61d96]; and in general a one-line file name
    [soljson-<v>.js] yields [<v>]. *)
Theorem getLongVersion_strips (s : State W) (resp : AxiosResponse) (w : W)
    (props rels : list (string * json)) :
  axios_get COMPILERS_LIST_URL (world s) = (Ok resp, w) →
  (200 ≤ status resp ≤ 299)%Z →
  response_data resp = JObject props →
  ownProperty "releases" props = Some (JObject rels) →
  (ownProperty "v0.8.18" rels
     = Some (JString "soljson-v0.8.18+commit.87f61d96.js") →
   fst (getLongVersion axios_get this "v0.8.18" s)
     = Ok "v0.8.18+commit.87f61d96")
  ∧ (∀ shortVersion v : string,
       ownProperty shortVersion rels
         = Some (JString ("soljson-" +:+ v +:+ ".js")) →
       singleLine v = true →
       fst (getLongVersion axios_get this shortVersion s) = Ok v).
Proof.
  intros Hget Hst Hdata Hrel. split.
  - intros Hentry.
    rewrite (getLongVersion_found _ _ s resp w props rels Hget Hst Hdata Hrel
               Hentry) by discriminate.
    reflexivity.
  - intros shortVersion v Hentry Hv.
    rewrite (getLongVersion_found _ _ s resp w props rels Hget Hst Hdata Hrel
               Hentry) by discriminate.
    simpl. f_equal. apply replaceSoljson_strips, Hv.
Qed.


(** Every error [getLongVersion] surfaces is the one built in its [catch]
    block. *)
Lemma getLongVersion_throws (shortVersion : string) (s : State W) (e : JsError) :
  fst (getLongVersion axios_get this shortVersion s) = Throw e →
  e = lookupFailure.
Proof.
  run. destruct (axios_get COMPILERS_LIST_URL (world s)) as [[resp|e0] w]; simpl.
  2: { destruct (logger this); simpl; congruence. }
  destruct ((status resp <? 200)%Z || (299 <? status resp)%Z); simpl.
  { destruct (logger this); simpl; congruence. }
  destruct (getProp (Some (response_data resp)) "releases") as [releases|e0]; simpl.
  2: { destruct (logger this); simpl; congruence. }
  destruct (getProp releases shortVersion) as [[[| | |[|]| |]|]|e0]; simpl;
    destruct (logger this); simpl; congruence.
Qed.

Lemma normalizeVersion_long (version : string) (s : State W) :
  includes "+" version = true →
  normalizeVersion axios_get this version s
    = (Ok (default EmptyString (head (split "+" version)), version), s).
Proof. intros H. unfold normalizeVersion. rewrite H. reflexivity. Qed.

Lemma backendCalls_app (evs1 evs2 : list Event) :
  backendCalls (evs1 ++ evs2) = backendCalls evs1 ++ backendCalls evs2.
Proof.
  induction evs1 as [|ev evs1 IH]; [reflexivity|].
  destruct ev; simpl; rewrite IH; reflexivity.
Qed.

(** Deriving the versions submits nothing to a back end. *)
Lemma normalizeVersion_events (version : string) (s : State W) :
  ∃ (r : outcome (string * string)) (w : W) (evs : list Event),
    normalizeVersion axios_get this version s
      = (r, mkState w (trace s ++ evs))
    ∧ backendCalls evs = [].
Proof.
  unfold normalizeVersion. destruct (includes "+" version).
  - exists (Ok (default EmptyString (head (split "+" version)), version)),
      (world s), [].
    rewrite app_nil_r. destruct s. split; reflexivity.
  - destruct (getLongVersion_events version s) as (r & w & evs & Hrun & Hno).
    unfold bind. rewrite Hrun. destruct r as [long|e]; eexists _, _, evs;
      (split; [reflexivity|exact Hno]).
Qed.

(** C5.  A version that contains [+] is split into the part before its
    first [+], which is the version submitted to Tenderly, and the rest;
    none of the external calls [verifyContract] makes is a request to the
    compiler registry. *)
Theorem verifyContract_long_version (address : string)
    (verificationRequest : ContractVerificationRequest) (s : State W) :
  includes "+" (version verificationRequest) = true →
  ∃ (shortVersion rest : string) (r : outcome unit) (s' : State W)
    (evs : list Event),
    version verificationRequest = shortVersion +:+ "+" +:+ rest
    ∧ includes "+" shortVersion = false
    ∧ verifyContract axios_get this address verificationRequest s = (r, s')
    ∧ trace s' = trace s ++ evs
    ∧ head evs
      = Some (EvTenderly address (contractToVerify verificationRequest)
                (tenderVerificationRequest verificationRequest shortVersion))
    ∧ TenderlyVerifier.version
        (TenderlyVerifier.solc
           (tenderVerificationRequest verificationRequest shortVersion))
      = shortVersion
    ∧ Forall (λ ev, isRegistryCall ev = false) evs.
Proof.
  intros Hplus.
  destruct (split_plus_head _ Hplus) as (rest & Heq & Hno).
  exists (default EmptyString (head (split "+" (version verificationRequest)))),
    rest.
  unfold verifyContract. unfold bind at 1.
  rewrite (normalizeVersion_long _ s Hplus). simpl.
  unfold bind, call. simpl.
  destruct (TenderlyVerifier.verifyContract _ _ _ _ _) as [[[]|e] w2]; simpl.
  - destruct (EtherscanVerifier.verifyContract _ _ _ _) as [r w3]; simpl.
    eexists _, _, _. split; [exact Heq|]. split; [exact Hno|].
    split; [reflexivity|]. simpl.
    split; [rewrite <- app_assoc; reflexivity|].
    split; [reflexivity|]. split; [reflexivity|]. repeat constructor.
  - eexists _, _, _. split; [exact Heq|]. split; [exact Hno|].
    split; [reflexivity|]. simpl.
    split; [reflexivity|].
    split; [reflexivity|]. split; [reflexivity|]. repeat constructor.
Qed.

(** The claim's example of a truncation. *)
Example short_of_long_version :
  default EmptyString (head (split "+" "v0.8.18+commit.87f61d96")) = "v0.8.18".
Proof. reflexivity. Qed.

(** C6.  The back-end submissions of a call to [verifyContract] are none,
    Tenderly alone, or Tenderly followed by Etherscan.  When the Tenderly
    submission throws, its error is the outcome of [verifyContract] and
    Etherscan is not called.  When the Tenderly submission returns, the
    Etherscan submission is made next: the call ends with the Tenderly
    event followed by the Etherscan event, and the outcome of the Etherscan
    submission is the outcome of [verifyContract]. *)
Theorem verifyContract_backend_order (address : string)
    (verificationRequest : ContractVerificationRequest) (s : State W) :
  (∃ (r : outcome unit) (s' : State W) (evs : list Event),
     verifyContract axios_get this address verificationRequest s = (r, s')
     ∧ trace s' = trace s ++ evs
     ∧ (backendCalls evs = []
        ∨ backendCalls evs = [BackendA]
        ∨ backendCalls evs = [BackendA; BackendB]))
  ∧ (∀ (shortVersion longVersion : string) (s1 : State W) (e : JsError) (w2 : W),
       normalizeVersion axios_get this (version verificationRequest) s
         = (Ok (shortVersion, longVersion), s1) →
       TenderlyVerifier.verifyContract (tenderlyVerifier this) address
         (contractToVerify verificationRequest)
         (tenderVerificationRequest verificationRequest shortVersion) (world s1)
         = (Throw e, w2) →
       ∃ (s' : State W) (evs : list Event),
         verifyContract axios_get this address verificationRequest s
           = (Throw e, s')
         ∧ trace s' = trace s ++ evs
         ∧ backendCalls evs = [BackendA])
  ∧ (∀ (shortVersion longVersion : string) (s1 : State W) (w2 w3 : W)
       (outcomeB : outcome unit),
       normalizeVersion axios_get this (version verificationRequest) s
         = (Ok (shortVersion, longVersion), s1) →
       TenderlyVerifier.verifyContract (tenderlyVerifier this) address
         (contractToVerify verificationRequest)
         (tenderVerificationRequest verificationRequest shortVersion) (world s1)
         = (Ok tt, w2) →
       EtherscanVerifier.verifyContract (etherscanVerifier this) address
         (etherscanVerificationRequest verificationRequest longVersion) w2
         = (outcomeB, w3) →
       ∃ (s' : State W) (before : list Event),
         verifyContract axios_get this address verificationRequest s
           = (outcomeB, s')
         ∧ world s' = w3
         ∧ trace s'
           = trace s ++ before
             ++ [EvTenderly address (contractToVerify verificationRequest)
                   (tenderVerificationRequest verificationRequest shortVersion);
                 EvEtherscan address
                   (etherscanVerificationRequest verificationRequest
                      longVersion)]
         ∧ backendCalls before = []).
Proof.
  destruct (normalizeVersion_events (version verificationRequest) s)
    as (r & w & evs & Hrun & Hno).
  split; [|split].
  - unfold verifyContract. unfold bind at 1. rewrite Hrun.
    destruct r as [[shortVersion longVersion]|e]; simpl.
    2: { eexists _, _, evs. split; [reflexivity|]. split; [reflexivity|].
         left. exact Hno. }
    unfold bind, call. simpl.
    destruct (TenderlyVerifier.verifyContract _ _ _ _ _) as [[[]|e] w2]; simpl.
    + destruct (EtherscanVerifier.verifyContract _ _ _ _) as [r w3]; simpl.
      eexists _, _, _. split; [reflexivity|]. simpl.
      split; [rewrite <- !app_assoc; reflexivity|].
      right. right. rewrite backendCalls_app, Hno. reflexivity.
    + eexists _, _, _. split; [reflexivity|]. simpl.
      split; [rewrite <- !app_assoc; reflexivity|].
      right. left. rewrite backendCalls_app, Hno. reflexivity.
  - intros shortVersion longVersion s1 e w2 Hnorm Htenderly.
    rewrite Hnorm in Hrun. injection Hrun as <- ->. simpl in Htenderly.
    unfold verifyContract. unfold bind at 1. rewrite Hnorm. simpl.
    unfold bind, call. simpl. rewrite Htenderly. simpl.
    eexists _, _. split; [reflexivity|]. simpl.
    split; [rewrite <- !app_assoc; reflexivity|].
    rewrite backendCalls_app, Hno. reflexivity.
  - intros shortVersion longVersion s1 w2 w3 outcomeB Hnorm Htenderly Hetherscan.
    rewrite Hnorm in Hrun. injection Hrun as <- ->. simpl in Htenderly.
    unfold verifyContract. unfold bind at 1. rewrite Hnorm. simpl.
    unfold bind, call. simpl. rewrite Htenderly. simpl. rewrite Hetherscan.
    exists (mkState w3
              ((trace s ++ evs)
               ++ [EvTenderly address (contractToVerify verificationRequest)
                     (tenderVerificationRequest verificationRequest
                        shortVersion)]
               ++ [EvEtherscan address
                     (etherscanVerificationRequest verificationRequest
                        longVersion)])), evs.
    split; [rewrite <- !app_assoc; reflexivity|]. simpl.
    split; [reflexivity|]. split; [rewrite <- !app_assoc; reflexivity|].
    exact Hno.
Qed.


(** C7.  [validateBytecode] throws [Bytecode mismatch] whenever the
    factory's creation bytecode is not the expected string, in particular
    when the two differ at some position, and returns normally exactly when
    the two are equal. *)
Theorem validateBytecode_mismatch
    (contractFactory : Signer → ContractFactory Args Contract)
    (expectedBytecode : string) :
  let actual := bytecode (contractFactory (signer this)) in
  (actual ≠ expectedBytecode →
   validateBytecode this contractFactory expectedBytecode
     = Throw (Error "Bytecode mismatch"))
  ∧ (∀ i : nat,
       String.get i actual ≠ String.get i expectedBytecode →
       validateBytecode this contractFactory expectedBytecode
         = Throw (Error "Bytecode mismatch"))
  ∧ (validateBytecode this contractFactory expectedBytecode = Ok tt
     ↔ actual = expectedBytecode).
Proof.
  intros actual.
  assert (Hne : actual ≠ expectedBytecode →
                validateBytecode this contractFactory expectedBytecode
                = Throw (Error "Bytecode mismatch")).
  { intros H. unfold validateBytecode. fold actual.
    apply String.eqb_neq in H. rewrite H. reflexivity. }
  split; [exact Hne|]. split.
  - intros i Hi. apply Hne. intros Heq. apply Hi. rewrite Heq. reflexivity.
  - unfold validateBytecode. fold actual.
    destruct (String.eqb actual expectedBytecode) eqn:Heq; simpl.
    + apply String.eqb_eq in Heq. split; intros _; [exact Heq|reflexivity].
    + apply String.eqb_neq in Heq. split; [discriminate|contradiction].
Qed.

(** C8, as the code has it.  [getLongVersion] throws when the registry
    request fails, when the response status is outside 200..299, and when
    the registry has no entry or an empty entry for the requested version.
    In the first two cases the error surfaced is the fixed
    [Unable to determine solidity compiler version], whatever version was
    requested. *)
Theorem getLongVersion_failures (shortVersion : string) (s : State W) :
  (∀ (e : JsError) (w : W),
     axios_get COMPILERS_LIST_URL (world s) = (Throw e, w) →
     fst (getLongVersion axios_get this shortVersion s) = Throw lookupFailure)
  ∧ (∀ (resp : AxiosResponse) (w : W),
       axios_get COMPILERS_LIST_URL (world s) = (Ok resp, w) →
       (status resp < 200 ∨ 299 < status resp)%Z →
       fst (getLongVersion axios_get this shortVersion s) = Throw lookupFailure)
  ∧ (∀ (resp : AxiosResponse) (w : W) (props rels : list (string * json)),
       axios_get COMPILERS_LIST_URL (world s) = (Ok resp, w) →
       response_data resp = JObject props →
       ownProperty "releases" props = Some (JObject rels) →
       ownProperty shortVersion rels = None
       ∨ ownProperty shortVersion rels = Some (JString EmptyString) →
       ∃ e : JsError,
         fst (getLongVersion axios_get this shortVersion s) = Throw e).
Proof.
  split; [|split].
  - intros e w Hget. run. rewrite Hget. simpl.
    destruct (logger this); reflexivity.
  - intros resp w Hget Hst. run. rewrite Hget. simpl.
    assert (Hbad : (status resp <? 200)%Z || (299 <? status resp)%Z = true).
    { apply orb_true_iff. destruct Hst; [left|right]; apply Z.ltb_lt; lia. }
    rewrite Hbad. simpl. destruct (logger this); reflexivity.
  - intros resp w props rels Hget Hdata Hrel Hentry. run. rewrite Hget. simpl.
    destruct ((status resp <? 200)%Z || (299 <? status resp)%Z); simpl.
    { destruct (logger this); eexists; reflexivity. }
    rewrite Hdata. unfold getProp at 1. rewrite Hrel. unfold getProp.
    destruct Hentry as [-> | ->]; simpl;
      destruct (logger this); eexists; reflexivity.
Qed.

End VerifierProperties.

(** ** The theorems on the sample environments *)

Lemma sampleHash_length (b : bytes) : length (keccak256 sampleEthers b) = 32.
Proof.
  simpl. unfold sampleHash. rewrite length_take, length_app, repeat_length. lia.
Qed.

Lemma addressFromData_create2_witness :
  SingletonDeployer.addressFromData sampleEthers sampleDeployer sampleInitCode
  = getAddress sampleEthers
      (lastn 20
         (keccak256 sampleEthers
            ([xff] ++ sampleFactoryAddress ++ repeat x00 32
                   ++ keccak256 sampleEthers sampleInitCode))).
Proof.
  exact (proj1 (addressFromData_create2 sampleEthers sampleDeployer
                  sampleHash_length sampleInitCode)).
Defined.

Lemma deploy_skips_deployed_witness :
  ∃ (s' : SingletonDeployer.State nat) (evs : list SingletonDeployer.Event),
    SingletonDeployer.deploy sampleEthers sampleDeployer "Counter"
      sampleContract (Some 1%positive) tt (sampleState 1)
      = (Ok sampleAddress, s')
    ∧ SingletonDeployer.trace s' = [] ++ evs
    ∧ Forall (λ ev, SingletonDeployer.isTransaction ev = false) evs.
Proof.
  apply (deploy_skips_deployed sampleEthers sampleDeployer "Counter"
           sampleContract (Some 1%positive) tt (sampleState 1)
           {| data := Some sampleInitCode |} sampleInitCode sampleAddress
           "0x6080" [x60; x80] 1);
    [reflexivity | reflexivity | reflexivity | reflexivity | reflexivity
    | discriminate].
Defined.

Lemma deploy_unconfirmed_throws_witness :
  ∃ (e : JsError) (s' : SingletonDeployer.State nat),
    SingletonDeployer.deploy sampleEthers idleDeployer "Counter"
      sampleContract (Some 1%positive) tt (sampleState 0)
      = (Throw e, s')
    ∧ message e = "Failed to deploy " +:+ "Counter" +:+ " at " +:+ sampleAddress
    ∧ includes "Counter" (message e) = true
    ∧ includes sampleAddress (message e) = true.
Proof.
  apply (deploy_unconfirmed_throws sampleEthers idleDeployer "Counter"
           sampleContract (Some 1%positive) tt (sampleState 0)
           {| data := Some sampleInitCode |} sampleInitCode sampleAddress
           "0x" "0x" sampleRequest
           (<["gasLimit" := JsBigNumber 12000000]> sampleRequest)
           0 0 0 0 0 {| wait := λ n, (Ok tt, n) |});
    try reflexivity; try (simpl; lia).
  left. split; [reflexivity|].
  exists {| gasLimit := 30000000 |}. split; reflexivity.
Defined.

Lemma deploy_gas_estimate_witness :
  ∃ (r : outcome string) (s' : SingletonDeployer.State nat)
    (evs : list SingletonDeployer.Event),
    SingletonDeployer.deploy sampleEthers sampleDeployer "Counter"
      sampleContract (Some 1%positive) tt (sampleState 0) = (r, s')
    ∧ SingletonDeployer.trace s' = [] ++ evs
    ∧ List.filter SingletonDeployer.isTransaction evs
      = [SingletonDeployer.EvFactoryDeploy sampleInitCode HashZero 1%positive
           (<["gasLimit" := JsBigNumber 12000000]> sampleRequest)].
Proof.
  apply (deploy_gas_estimate sampleEthers sampleDeployer "Counter"
           sampleContract (Some 1%positive) tt (sampleState 0)
           {| data := Some sampleInitCode |} sampleInitCode sampleAddress
           "0x" sampleRequest {| gasLimit := 30000000 |} 0 0);
    try reflexivity; simpl; lia.
Defined.


Lemma getLongVersion_strips_witness :
  fst (ContractVerifier.getLongVersion sampleAxios sampleVerifier "v0.8.18"
         (sampleVerifierState true))
  = Ok "v0.8.18+commit.87f61d96".
Proof.
  apply (proj1 (getLongVersion_strips sampleAxios sampleVerifier
                  (sampleVerifierState true)
                  {| status := 200; response_data := sampleRegistry |} true
                  [("builds", JArray []);
                   ("releases",
                    JObject
                      [("v0.8.18", JString "soljson-v0.8.18+commit.87f61d96.js");
                       ("v0.8.19", JString "")])]
                  [("v0.8.18", JString "soljson-v0.8.18+commit.87f61d96.js");
                   ("v0.8.19", JString "")]
                  eq_refl ltac:(simpl; lia) eq_refl eq_refl)).
  reflexivity.
Defined.

Lemma verifyContract_long_version_witness :
  ∃ (shortVersion rest : string) (r : outcome unit)
    (s' : ContractVerifier.State bool) (evs : list ContractVerifier.Event),
    "v0.8.18+commit.87f61d96" = shortVersion +:+ "+" +:+ rest
    ∧ includes "+" shortVersion = false
    ∧ ContractVerifier.verifyContract sampleAxios sampleVerifier "0x5FbDB2"
        sampleVerificationRequest (sampleVerifierState true) = (r, s')
    ∧ ContractVerifier.trace s' = [] ++ evs
    ∧ head evs
      = Some (ContractVerifier.EvTenderly "0x5FbDB2"
                "Counter.sol:CounterWithLogs"
                (ContractVerifier.tenderVerificationRequest
                   sampleVerificationRequest shortVersion))
    ∧ TenderlyVerifier.version
        (TenderlyVerifier.solc
           (ContractVerifier.tenderVerificationRequest
              sampleVerificationRequest shortVersion))
      = shortVersion
    ∧ Forall (λ ev, ContractVerifier.isRegistryCall ev = false) evs.
Proof.
  apply (verifyContract_long_version sampleAxios sampleVerifier "0x5FbDB2"
           sampleVerificationRequest (sampleVerifierState true)).
  reflexivity.
Defined.

Lemma verifyContract_backend_order_witness :
  (∃ (s' : ContractVerifier.State bool) (evs : list ContractVerifier.Event),
     ContractVerifier.verifyContract sampleAxios sampleVerifier "0x5FbDB2"
       sampleVerificationRequest (sampleVerifierState true)
       = (Throw (Error "Tenderly: project not found"), s')
     ∧ ContractVerifier.trace s' = [] ++ evs
     ∧ ContractVerifier.backendCalls evs = [ContractVerifier.BackendA])
  ∧ (∃ (s' : ContractVerifier.State bool)
       (before : list ContractVerifier.Event),
       ContractVerifier.verifyContract sampleAxios acceptingVerifier "0x5FbDB2"
         sampleVerificationRequest (sampleVerifierState true)
         = (Ok tt, s')
       ∧ ContractVerifier.world s' = true
       ∧ ContractVerifier.trace s'
         = [] ++ before
           ++ [ContractVerifier.EvTenderly "0x5FbDB2"
                 "Counter.sol:CounterWithLogs"
                 (ContractVerifier.tenderVerificationRequest
                    sampleVerificationRequest "v0.8.18");
               ContractVerifier.EvEtherscan "0x5FbDB2"
                 (ContractVerifier.etherscanVerificationRequest
                    sampleVerificationRequest "v0.8.18+commit.87f61d96")]
       ∧ ContractVerifier.backendCalls before = []).
Proof.
  split.
  - apply (proj1 (proj2 (verifyContract_backend_order sampleAxios sampleVerifier
                           "0x5FbDB2" sampleVerificationRequest
                           (sampleVerifierState true)))
             "v0.8.18" "v0.8.18+commit.87f61d96" (sampleVerifierState true)
             (Error "Tenderly: project not found") true);
      reflexivity.
  - apply (proj2 (proj2 (verifyContract_backend_order sampleAxios
                           acceptingVerifier "0x5FbDB2"
                           sampleVerificationRequest
                           (sampleVerifierState true)))
             "v0.8.18" "v0.8.18+commit.87f61d96" (sampleVerifierState true)
             true true (Ok tt));
      reflexivity.
Defined.

Lemma validateBytecode_mismatch_witness :
  ContractVerifier.validateBytecode sampleVerifier sampleContract
    "0x6080604052" = Ok tt
  ∧ ContractVerifier.validateBytecode sampleVerifier sampleContract
      "0x6080604053" = Throw (Error "Bytecode mismatch").
Proof.
  split.
  - apply (proj2 (proj2 (validateBytecode_mismatch sampleVerifier
                           sampleContract "0x6080604052"))).
    reflexivity.
  - apply (proj1 (validateBytecode_mismatch sampleVerifier sampleContract
                    "0x6080604053")).
    discriminate.
Defined.

Lemma getLongVersion_failures_witness :
  fst (ContractVerifier.getLongVersion sampleAxios sampleVerifier "v0.8.18"
         (sampleVerifierState false))
  = Throw ContractVerifier.lookupFailure
  ∧ ∃ e : JsError,
      fst (ContractVerifier.getLongVersion sampleAxios sampleVerifier "v0.8.19"
             (sampleVerifierState true))
      = Throw e.
Proof.
  split.
  - apply (proj1 (getLongVersion_failures sampleAxios sampleVerifier "v0.8.18"
                    (sampleVerifierState false))
             (Error "getaddrinfo ENOTFOUND solc-bin.ethereum.org") false).
    reflexivity.
  - apply (proj2 (proj2 (getLongVersion_failures sampleAxios sampleVerifier
                           "v0.8.19" (sampleVerifierState true)))
             {| status := 200; response_data := sampleRegistry |} true
             [("builds", JArray []);
              ("releases",
               JObject
                 [("v0.8.18", JString "soljson-v0.8.18+commit.87f61d96.js");
                  ("v0.8.19", JString "")])]
             [("v0.8.18", JString "soljson-v0.8.18+commit.87f61d96.js");
              ("v0.8.19", JString "")]);
      try reflexivity.
    right. reflexivity.
Defined.

(** C8 as the specification states it fails: with the registry
    unreachable, the error surfaced for a request of [v0.8.18] does not
    mention [v0.8.18]. *)
Lemma getLongVersion_error_omits_version :
  ∃ e : JsError,
    fst (ContractVerifier.getLongVersion sampleAxios sampleVerifier "v0.8.18"
           (sampleVerifierState false))
    = Throw e
    ∧ includes "v0.8.18" (message e) = false.
Proof. eexists. split; reflexivity. Qed.

(** * Further properties *)

(** ** The gas estimate *)

(** The estimate of lines 55-57 lies between zero and the block gas limit,
    and is the largest integer whose tenfold does not exceed four times the
    limit. *)
Theorem estimate_bounds (g : Z) :
  (0 ≤ g)%Z →
  (0 ≤ BigNumber_div (BigNumber_mul g 4) 10 ≤ g)%Z
  ∧ (10 * BigNumber_div (BigNumber_mul g 4) 10 ≤ 4 * g
     < 10 * BigNumber_div (BigNumber_mul g 4) 10 + 10)%Z.
Proof.
  intros Hg. unfold BigNumber_div, BigNumber_mul.
  rewrite Z.quot_div_nonneg by lia.
  pose proof (Z.div_mod (g * 4) 10 ltac:(lia)) as Hdm.
  pose proof (Z.mod_pos_bound (g * 4) 10 ltac:(lia)) as Hm.
  lia.
Qed.

(** ** Runs of [deploy] *)

Section DeployerRuns.

Import SingletonDeployer.

Context {W Signer Args Contract : Type}.
Variable ethers : EthersUtils.
Variable this : SingletonDeployer W Signer.

Ltac run :=
  unfold deploy, upTheGas, factoryDeploy, call, log, logError, emit,
    readField, writeField, alloc, bind, ret, throw, lift; simpl.

(** One step of a case analysis on what the environment answers. *)
Ltac answer :=
  match goal with
  | |- context [match ?x with _ => _ end] =>
      lazymatch x with
      | context [match _ with _ => _ end] => fail
      | _ => destruct x eqn:?; simpl
      end
  end.

(** A factory without creation bytecode: [deploy] throws
    [No data for <name>] before it calls the provider or the factory. *)
Theorem deploy_without_data (name : string)
    (contract : Signer → ContractFactory Args Contract)
    (txParams : option loc) (args : Args) (s : State W)
    (dtx : DeployTransaction) :
  getDeployTransaction (contract (signer this)) args = Ok dtx →
  data dtx = None →
  ∃ (s' : State W) (evs : list Event),
    deploy ethers this name contract txParams args s
      = (Throw (Error ("No data for " +:+ name)), s')
    ∧ world s' = world s
    ∧ trace s' = trace s ++ evs
    ∧ externalCalls evs = [].
Proof.
  intros Hdtx Hd.
  destruct txParams as [l|]; run; destruct (logger this); simpl;
    rewrite Hdtx; simpl; rewrite Hd; simpl.
  - exists (mkState (world s) (heap s) (trace s ++ [EvLog ("Deploying " +:+ name)])),
      [EvLog ("Deploying " +:+ name)]. auto.
  - exists s, []. rewrite app_nil_r. destruct s; auto.
  - eexists _, [EvLog ("Deploying " +:+ name)]. simpl. auto.
  - eexists _, []. simpl. rewrite app_nil_r. auto.
Qed.

(** Every handle [deploy] returns is attached to the address [addressOf]
    computes for the same factory and arguments. *)
Theorem deploy_handle_at_addressOf (name contractName : string)
    (contract : Signer → ContractFactory Args Contract)
    (txParams : option loc) (args : Args) (s s' : State W) (handle : Contract) :
  deploy ethers this name contract txParams args s = (Ok handle, s') →
  ∃ address : string,
    addressOf ethers this contractName contract args = Ok address
    ∧ handle = attach (contract (signer this)) address.
Proof.
  unfold addressOf. run.
  destruct txParams as [l|]; destruct (logger this); simpl;
    (destruct (getDeployTransaction (contract (signer this)) args) as [dtx|e];
       simpl; [|discriminate]);
    (destruct (data dtx) as [d|]; simpl; [|discriminate]);
    (destruct (addressFromData ethers this d) as [address|e]; simpl;
       [|discriminate]);
    repeat answer; intros H; try discriminate;
    injection H as <- _; exists address; split; reflexivity.
Qed.


(** Whatever the environment answers, the only thing [deploy] does to the
    heap, besides allocating the default request, is to write the
    [gasLimit] property of the request object. *)
Lemma deploy_heap (name : string)
    (contract : Signer → ContractFactory Args Contract)
    (txParams : option loc) (args : Args) (s : State W) :
  let s' := snd (deploy ethers this name contract txParams args s) in
  heap s' = paramHeap txParams s
  ∨ ∃ v : JsVal,
      heap s' = alter (<["gasLimit" := v]>) (paramLoc txParams s)
                  (paramHeap txParams s).
Proof.
  run. destruct txParams as [l|]; simpl; repeat answer;
    solve [left; reflexivity | right; eexists; reflexivity].
Qed.

(** With a caller-supplied request object, every run of [deploy] leaves
    all other objects as they were, and leaves every property of the
    request object other than [gasLimit] as it was. *)
Theorem deploy_frame (name : string)
    (contract : Signer → ContractFactory Args Contract)
    (l : loc) (args : Args) (s : State W) (obj : TransactionRequest) :
  heap s !! l = Some obj →
  let s' := snd (deploy ethers this name contract (Some l) args s) in
  (∀ l' : loc, l' ≠ l → heap s' !! l' = heap s !! l')
  ∧ ∃ obj' : TransactionRequest,
      heap s' !! l = Some obj'
      ∧ ∀ k : string, k ≠ "gasLimit" → obj' !! k = obj !! k.
Proof.
  intros Hobj s'.
  destruct (deploy_heap name contract (Some l) args s) as [Hh | [v Hh]];
    fold s' in Hh; simpl in Hh; rewrite Hh.
  - split; [reflexivity|]. exists obj. split; [exact Hobj|reflexivity].
  - split.
    + intros l' Hl'. apply lookup_alter_ne. congruence.
    + exists (<["gasLimit" := v]> obj). split.
      * rewrite lookup_alter_eq, Hobj. reflexivity.
      * intros k Hk. apply lookup_insert_ne. congruence.
Qed.

(** When [txParams] is omitted, no run of [deploy] changes any object the
    caller holds: the default request is a new object. *)
Theorem deploy_default_request_fresh (name : string)
    (contract : Signer → ContractFactory Args Contract)
    (args : Args) (s : State W) (l : loc) (obj : TransactionRequest) :
  heap s !! l = Some obj →
  heap (snd (deploy ethers this name contract None args s)) !! l = Some obj.
Proof.
  intros Hobj.
  assert (Hl : l ≠ fresh (dom (heap s))).
  { intros ->. apply (is_fresh (dom (heap s))), elem_of_dom. eauto. }
  destruct (deploy_heap name contract None args s) as [Hh | [v Hh]];
    simpl in Hh; rewrite Hh.
  - rewrite lookup_insert_ne by congruence. exact Hobj.
  - rewrite lookup_alter_ne, lookup_insert_ne by congruence. exact Hobj.
Qed.


(** The protocol of [deploy].  In every run the calls on the outside
    world are an initial part of: code query at the derived address, block
    query (only when the gas limit is estimated), factory call with the
    creation data and the zero salt, wait, code query at the same address.
    In particular at most one transaction is sent, and none before the
    chain was asked for existing code. *)
Theorem deploy_protocol (name : string)
    (contract : Signer → ContractFactory Args Contract)
    (txParams : option loc) (args : Args) (s : State W) :
  ∃ (r : outcome Contract) (s' : State W) (evs : list Event),
    deploy ethers this name contract txParams args s = (r, s')
    ∧ trace s' = trace s ++ evs
    ∧ (externalCalls evs = []
       ∨ ∃ (dtx : DeployTransaction) (d : bytes) (address : string)
           (overrides : TransactionRequest),
           getDeployTransaction (contract (signer this)) args = Ok dtx
           ∧ data dtx = Some d
           ∧ addressFromData ethers this d = Ok address
           ∧ (externalCalls evs `prefix_of`
                [EvGetCode address; EvGetBlock "latest";
                 EvFactoryDeploy d HashZero (paramLoc txParams s) overrides;
                 EvWait; EvGetCode address]
              ∨ externalCalls evs `prefix_of`
                  [EvGetCode address;
                   EvFactoryDeploy d HashZero (paramLoc txParams s) overrides;
                   EvWait; EvGetCode address])).
Proof.
  run. destruct txParams as [l|]; simpl; repeat answer;
    eexists _, _, _; (split; [reflexivity|]); simpl;
    (split; [first [rewrite <- ?app_assoc; reflexivity
                   |symmetry; apply app_nil_r]|]); simpl;
    first
      [ left; reflexivity
      | right; eexists _, _, _, _;
        (split; [reflexivity|]); (split; [eassumption|]);
        (split; [eassumption|]);
        first [left; eexists; reflexivity | right; eexists; reflexivity] ].
  Unshelve. all: exact ∅.
Qed.


(** When the first code query is rejected, [deploy] rejects with the same
    error; nothing else is asked of the chain and the heap is as the call
    found it. *)
Theorem deploy_query_failure (name : string)
    (contract : Signer → ContractFactory Args Contract)
    (txParams : option loc) (args : Args) (s : State W)
    (dtx : DeployTransaction) (d : bytes) (address : string)
    (e : JsError) (w1 : W) :
  getDeployTransaction (contract (signer this)) args = Ok dtx →
  data dtx = Some d →
  addressFromData ethers this d = Ok address →
  getCode (provider this) address (world s) = (Throw e, w1) →
  ∃ (s' : State W) (evs : list Event),
    deploy ethers this name contract txParams args s = (Throw e, s')
    ∧ world s' = w1
    ∧ heap s' = paramHeap txParams s
    ∧ trace s' = trace s ++ evs
    ∧ externalCalls evs = [EvGetCode address].
Proof.
  intros Hdtx Hd Haddr Hcode.
  destruct txParams as [l|]; run; destruct (logger this); simpl;
    rewrite Hdtx; simpl; rewrite Hd, Haddr; simpl; rewrite Hcode; simpl;
    eexists _, _; (split; [reflexivity|]); simpl;
    (split; [reflexivity|]); (split; [reflexivity|]);
    (split; [rewrite <- ?app_assoc; reflexivity|]); reflexivity.
Qed.

(** The successful deployment: nothing at the address, the transaction is
    sent and mined, and the second query finds code.  [deploy] returns the
    handle attached to the derived address, having sent exactly one
    transaction: creation data, zero salt, and the request as the gas step
    left it. *)
Theorem deploy_confirmed (name : string)
    (contract : Signer → ContractFactory Args Contract)
    (txParams : option loc) (args : Args) (s : State W)
    (dtx : DeployTransaction) (d : bytes) (address code1 code2 : string)
    (obj overrides : TransactionRequest) (w1 w2 w3 w4 w5 : W)
    (tx : ContractTransaction W) :
  getDeployTransaction (contract (signer this)) args = Ok dtx →
  data dtx = Some d →
  addressFromData ethers this d = Ok address →
  match txParams with Some l => heap s !! l = Some obj | None => obj = ∅ end →
  getCode (provider this) address (world s) = (Ok code1, w1) →
  String.length code1 ≤ 2 →
  (falsy (obj !! "gasLimit") = true
     ∧ (∃ b, getBlock (provider this) "latest" w1 = (Ok b, w2)
             ∧ overrides = <["gasLimit" := estimate b]> obj)
   ∨ falsy (obj !! "gasLimit") = false ∧ w2 = w1 ∧ overrides = obj) →
  SingletonFactory.deploy (singletonFactory this) d HashZero overrides w2
    = (Ok tx, w3) →
  wait tx w3 = (Ok tt, w4) →
  getCode (provider this) address w4 = (Ok code2, w5) →
  2 < String.length code2 →
  ∃ (s' : State W) (evs : list Event),
    deploy ethers this name contract txParams args s
      = (Ok (attach (contract (signer this)) address), s')
    ∧ world s' = w5
    ∧ trace s' = trace s ++ evs
    ∧ List.filter isTransaction evs
      = [EvFactoryDeploy d HashZero (paramLoc txParams s) overrides].
Proof.
  intros Hdtx Hd Haddr Hobj Hcode1 Hlen1 Hgas Hsend Hwait Hcode2 Hlen2.
  assert (Hlen2' : (String.length code2 <=? 2)%nat = false)
    by (apply Nat.leb_gt; exact Hlen2).
  rewrite (deploy_not_deployed ethers this name contract txParams args s dtx d
             address code1 w1 Hdtx Hd Haddr Hcode1 Hlen1).
  apply param_live in Hobj.
  unfold bind at 1. rewrite (upTheGas_live this _ obj) by exact Hobj.
  destruct Hgas as [[Hf (b & Hb & ->)] | (Hf & -> & ->)]; rewrite Hf; simpl.
  - rewrite Hb. run. rewrite lookup_insert_eq. simpl. rewrite Hsend. simpl.
    rewrite Hwait. simpl. rewrite Hcode2. simpl. rewrite Hlen2'.
    eexists _, _. split; [reflexivity|]. simpl. split; [reflexivity|].
    split; [rewrite <- !app_assoc; reflexivity|].
    destruct (logger this); reflexivity.
  - run. rewrite Hobj. simpl. rewrite Hsend. simpl.
    rewrite Hwait. simpl. rewrite Hcode2. simpl. rewrite Hlen2'.
    eexists _, _. split; [reflexivity|]. simpl. split; [reflexivity|].
    split; [rewrite <- !app_assoc; reflexivity|].
    destruct (logger this); reflexivity.
Qed.

(** A request whose [gasLimit] is truthy is sent as it is: the latest
    block is never asked for and the heap is left untouched, whatever
    happens to the transaction.  A [BigNumber] is truthy even when it is
    zero. *)
Theorem deploy_keeps_gasLimit (name : string)
    (contract : Signer → ContractFactory Args Contract)
    (l : loc) (args : Args) (s : State W)
    (dtx : DeployTransaction) (d : bytes) (address code : string)
    (obj : TransactionRequest) (v : JsVal) (w1 : W) :
  getDeployTransaction (contract (signer this)) args = Ok dtx →
  data dtx = Some d →
  addressFromData ethers this d = Ok address →
  heap s !! l = Some obj →
  obj !! "gasLimit" = Some v →
  truthy v = true →
  getCode (provider this) address (world s) = (Ok code, w1) →
  String.length code ≤ 2 →
  ∃ (r : outcome Contract) (s' : State W) (evs : list Event),
    deploy ethers this name contract (Some l) args s = (r, s')
    ∧ heap s' = heap s
    ∧ trace s' = trace s ++ evs
    ∧ List.filter isBlockQuery evs = []
    ∧ List.filter isTransaction evs = [EvFactoryDeploy d HashZero l obj].
Proof.
  intros Hdtx Hd Haddr Hobj Hgas Hv Hcode Hlen.
  rewrite (deploy_not_deployed ethers this name contract (Some l) args s dtx d
             address code w1 Hdtx Hd Haddr Hcode Hlen).
  unfold bind at 1. rewrite (upTheGas_live this _ obj) by exact Hobj.
  rewrite Hgas. simpl. rewrite Hv. simpl. run. rewrite Hobj. simpl.
  repeat answer; destruct (logger this); simpl;
    eexists _, _, _; (split; [reflexivity|]); simpl;
    (split; [reflexivity|]);
    (split; [rewrite <- !app_assoc; reflexivity|]); split; reflexivity.
Qed.

(** A [gasLimit] that is present but falsy, such as the number [0], is
    treated as missing: once the latest block is obtained the estimate
    replaces it, in the caller's object and in the transaction sent. *)
Theorem deploy_replaces_falsy_gasLimit (name : string)
    (contract : Signer → ContractFactory Args Contract)
    (l : loc) (args : Args) (s : State W)
    (dtx : DeployTransaction) (d : bytes) (address code : string)
    (obj : TransactionRequest) (v : JsVal) (b : Block) (w1 w2 : W) :
  getDeployTransaction (contract (signer this)) args = Ok dtx →
  data dtx = Some d →
  addressFromData ethers this d = Ok address →
  heap s !! l = Some obj →
  obj !! "gasLimit" = Some v →
  truthy v = false →
  getCode (provider this) address (world s) = (Ok code, w1) →
  String.length code ≤ 2 →
  getBlock (provider this) "latest" w1 = (Ok b, w2) →
  ∃ (r : outcome Contract) (s' : State W) (evs : list Event),
    deploy ethers this name contract (Some l) args s = (r, s')
    ∧ heap s' = <[l := <["gasLimit" := estimate b]> obj]> (heap s)
    ∧ trace s' = trace s ++ evs
    ∧ List.filter isTransaction evs
      = [EvFactoryDeploy d HashZero l (<["gasLimit" := estimate b]> obj)].
Proof.
  intros Hdtx Hd Haddr Hobj Hgas Hv Hcode Hlen Hblock.
  rewrite (deploy_not_deployed ethers this name contract (Some l) args s dtx d
             address code w1 Hdtx Hd Haddr Hcode Hlen).
  unfold bind at 1. rewrite (upTheGas_live this _ obj) by exact Hobj.
  rewrite Hgas. simpl. rewrite Hv. simpl. rewrite Hblock. run.
  rewrite lookup_insert_eq. simpl.
  repeat answer; destruct (logger this); simpl;
    eexists _, _, _; (split; [reflexivity|]); simpl;
    (split; [reflexivity|]);
    (split; [rewrite <- !app_assoc; reflexivity|]); reflexivity.
Qed.


(** When the gas limit has to be estimated and the latest block cannot be
    obtained, [deploy] rejects with the provider's error: no transaction is
    sent and the request object is not written. *)
Theorem deploy_block_failure (name : string)
    (contract : Signer → ContractFactory Args Contract)
    (txParams : option loc) (args : Args) (s : State W)
    (dtx : DeployTransaction) (d : bytes) (address code : string)
    (obj : TransactionRequest) (e : JsError) (w1 w2 : W) :
  getDeployTransaction (contract (signer this)) args = Ok dtx →
  data dtx = Some d →
  addressFromData ethers this d = Ok address →
  match txParams with Some l => heap s !! l = Some obj | None => obj = ∅ end →
  falsy (obj !! "gasLimit") = true →
  getCode (provider this) address (world s) = (Ok code, w1) →
  String.length code ≤ 2 →
  getBlock (provider this) "latest" w1 = (Throw e, w2) →
  ∃ (s' : State W) (evs : list Event),
    deploy ethers this name contract txParams args s = (Throw e, s')
    ∧ heap s' = paramHeap txParams s
    ∧ trace s' = trace s ++ evs
    ∧ externalCalls evs = [EvGetCode address; EvGetBlock "latest"].
Proof.
  intros Hdtx Hd Haddr Hobj Hgas Hcode Hlen Hblock.
  rewrite (deploy_not_deployed ethers this name contract txParams args s dtx d
             address code w1 Hdtx Hd Haddr Hcode Hlen).
  apply param_live in Hobj.
  unfold bind at 1. rewrite (upTheGas_live this _ obj) by exact Hobj.
  rewrite Hgas. simpl. rewrite Hblock.
  eexists _, _. split; [reflexivity|]. simpl. split; [reflexivity|].
  split; [rewrite <- !app_assoc; reflexivity|].
  destruct (logger this); reflexivity.
Qed.

(** When the factory call is rejected, [deploy] rejects with the same
    error and stops there: it neither waits nor asks for the code again. *)
Theorem deploy_rejected (name : string)
    (contract : Signer → ContractFactory Args Contract)
    (txParams : option loc) (args : Args) (s : State W)
    (dtx : DeployTransaction) (d : bytes) (address code : string)
    (obj overrides : TransactionRequest) (e : JsError) (w1 w2 w3 : W) :
  getDeployTransaction (contract (signer this)) args = Ok dtx →
  data dtx = Some d →
  addressFromData ethers this d = Ok address →
  match txParams with Some l => heap s !! l = Some obj | None => obj = ∅ end →
  getCode (provider this) address (world s) = (Ok code, w1) →
  String.length code ≤ 2 →
  (falsy (obj !! "gasLimit") = true
     ∧ (∃ b, getBlock (provider this) "latest" w1 = (Ok b, w2)
             ∧ overrides = <["gasLimit" := estimate b]> obj)
   ∨ falsy (obj !! "gasLimit") = false ∧ w2 = w1 ∧ overrides = obj) →
  SingletonFactory.deploy (singletonFactory this) d HashZero overrides w2
    = (Throw e, w3) →
  ∃ (s' : State W) (evs : list Event),
    deploy ethers this name contract txParams args s = (Throw e, s')
    ∧ world s' = w3
    ∧ trace s' = trace s ++ evs
    ∧ externalCalls evs
      = EvGetCode address
        :: (if falsy (obj !! "gasLimit") then [EvGetBlock "latest"] else [])
        ++ [EvFactoryDeploy d HashZero (paramLoc txParams s) overrides].
Proof.
  intros Hdtx Hd Haddr Hobj Hcode Hlen Hgas Hsend.
  rewrite (deploy_not_deployed ethers this name contract txParams args s dtx d
             address code w1 Hdtx Hd Haddr Hcode Hlen).
  apply param_live in Hobj.
  unfold bind at 1. rewrite (upTheGas_live this _ obj) by exact Hobj.
  destruct Hgas as [[Hf (b & Hb & ->)] | (Hf & -> & ->)]; rewrite Hf; simpl.
  - rewrite Hb. run. rewrite lookup_insert_eq. simpl. rewrite Hsend. simpl.
    eexists _, _. split; [reflexivity|]. simpl. split; [reflexivity|].
    split; [rewrite <- !app_assoc; reflexivity|].
    destruct (logger this); reflexivity.
  - run. rewrite Hobj. simpl. rewrite Hsend. simpl.
    eexists _, _. split; [reflexivity|]. simpl. split; [reflexivity|].
    split; [rewrite <- !app_assoc; reflexivity|].
    destruct (logger this); reflexivity.
Qed.

(** When waiting for the transaction fails, [deploy] rejects with the same
    error without asking for the code at the address again. *)
Theorem deploy_reverted (name : string)
    (contract : Signer → ContractFactory Args Contract)
    (txParams : option loc) (args : Args) (s : State W)
    (dtx : DeployTransaction) (d : bytes) (address code : string)
    (obj overrides : TransactionRequest) (e : JsError) (w1 w2 w3 w4 : W)
    (tx : ContractTransaction W) :
  getDeployTransaction (contract (signer this)) args = Ok dtx →
  data dtx = Some d →
  addressFromData ethers this d = Ok address →
  match txParams with Some l => heap s !! l = Some obj | None => obj = ∅ end →
  getCode (provider this) address (world s) = (Ok code, w1) →
  String.length code ≤ 2 →
  (falsy (obj !! "gasLimit") = true
     ∧ (∃ b, getBlock (provider this) "latest" w1 = (Ok b, w2)
             ∧ overrides = <["gasLimit" := estimate b]> obj)
   ∨ falsy (obj !! "gasLimit") = false ∧ w2 = w1 ∧ overrides = obj) →
  SingletonFactory.deploy (singletonFactory this) d HashZero overrides w2
    = (Ok tx, w3) →
  wait tx w3 = (Throw e, w4) →
  ∃ (s' : State W) (evs : list Event),
    deploy ethers this name contract txParams args s = (Throw e, s')
    ∧ world s' = w4
    ∧ trace s' = trace s ++ evs
    ∧ externalCalls evs
      = EvGetCode address
        :: (if falsy (obj !! "gasLimit") then [EvGetBlock "latest"] else [])
        ++ [EvFactoryDeploy d HashZero (paramLoc txParams s) overrides; EvWait].
Proof.
  intros Hdtx Hd Haddr Hobj Hcode Hlen Hgas Hsend Hwait.
  rewrite (deploy_not_deployed ethers this name contract txParams args s dtx d
             address code w1 Hdtx Hd Haddr Hcode Hlen).
  apply param_live in Hobj.
  unfold bind at 1. rewrite (upTheGas_live this _ obj) by exact Hobj.
  destruct Hgas as [[Hf (b & Hb & ->)] | (Hf & -> & ->)]; rewrite Hf; simpl.
  - rewrite Hb. run. rewrite lookup_insert_eq. simpl. rewrite Hsend. simpl.
    rewrite Hwait. simpl.
    eexists _, _. split; [reflexivity|]. simpl. split; [reflexivity|].
    split; [rewrite <- !app_assoc; reflexivity|].
    destruct (logger this); reflexivity.
  - run. rewrite Hobj. simpl. rewrite Hsend. simpl. rewrite Hwait. simpl.
    eexists _, _. split; [reflexivity|]. simpl. split; [reflexivity|].
    split; [rewrite <- !app_assoc; reflexivity|].
    destruct (logger this); reflexivity.
Qed.

End DeployerRuns.

(** ** Construction *)

(** Constructing a deployer fails exactly when the signer has no provider;
    otherwise the deployer talks to the signer's provider and uses the
    factory it was given, or a new factory contract over the signer when it
    was given none. *)
Lemma newSingletonDeployer_provider {W Signer : Type}
    (providerOf : Signer → option (Provider W))
    (newFactory : Signer → SingletonFactory.SingletonFactoryContract W)
    (signer : Signer) (logger : bool)
    (singletonFactory : option (SingletonFactory.SingletonFactoryContract W)) :
  (newSingletonDeployer providerOf newFactory signer logger singletonFactory
     = Throw (Error "Signer must have a provider")
   ↔ providerOf signer = None)
  ∧ (∀ provider : Provider W,
       providerOf signer = Some provider →
       ∃ this : SingletonDeployer.SingletonDeployer W Signer,
         newSingletonDeployer providerOf newFactory signer logger
           singletonFactory = Ok this
         ∧ SingletonDeployer.provider this = provider
         ∧ SingletonDeployer.signer this = signer
         ∧ SingletonDeployer.singletonFactory this
           = default (newFactory signer) singletonFactory).
Proof.
  unfold newSingletonDeployer. split.
  - destruct (providerOf signer); split; intros H;
      (discriminate || reflexivity).
  - intros provider ->. eexists. split; [reflexivity|].
    destruct singletonFactory; simpl; auto.
Qed.

(** ** Runs of the verifier *)

Lemma includes_unfold (needle s : string) :
  includes needle s
  = startsWith needle s
    || match s with
       | EmptyString => false
       | String _ s' => includes needle s'
       end.
Proof. destruct s; reflexivity. Qed.

(** Without an occurrence of [soljson-] nothing is replaced. *)
Lemma replaceSoljson_unchanged (s : string) :
  includes "soljson-" s = false → replaceSoljson s = s.
Proof.
  induction s as [|c s IH]; [reflexivity|].
  rewrite includes_unfold. intros [Hhere Hlater]%orb_false_iff.
  change (replaceSoljson (String c s))
    with (match matchSoljson (String c s) with
          | Some (group2, rest) => group2 +:+ rest
          | None => String c (replaceSoljson s)
          end).
  unfold matchSoljson. rewrite Hhere, (IH Hlater). reflexivity.
Qed.

Section VerifierRuns.

Import ContractVerifier.

Context {W Signer : Type}.
Variable axios_get : string → W → outcome AxiosResponse * W.
Variable this : ContractVerifier W Signer.

#[local] Arguments getProp : simpl never.

Ltac run :=
  unfold verifyContract, normalizeVersion, getLongVersion, try_catch, call,
    logError, bind, ret, throw, lift; simpl.

(** Every call of [getLongVersion] sends exactly one request, to the
    compiler list, whatever it finds: nothing is cached and nothing is
    retried.  It then either returns, or logs the fixed message once (when
    there is a logger) and throws the error with that message. *)
Theorem getLongVersion_one_request (shortVersion : string) (s : State W) :
  ∃ (r : outcome string) (w : W) (logs : list Event),
    getLongVersion axios_get this shortVersion s
      = (r, mkState w (trace s ++ EvHttpGet COMPILERS_LIST_URL :: logs))
    ∧ ((∃ longVersion : string, r = Ok longVersion ∧ logs = [])
       ∨ (r = Throw lookupFailure
          ∧ logs = if logger this
                   then [EvLogError (message lookupFailure)]
                   else [])).
Proof.
  run. destruct (axios_get COMPILERS_LIST_URL (world s)) as [[resp|e] w]; simpl.
  2: { destruct (logger this); simpl; eexists _, _, _;
         (split; [rewrite <- ?app_assoc; reflexivity|]); right; split;
         reflexivity. }
  destruct ((status resp <? 200)%Z || (299 <? status resp)%Z); simpl.
  { destruct (logger this); simpl; eexists _, _, _;
      (split; [rewrite <- ?app_assoc; reflexivity|]); right; split;
      reflexivity. }
  destruct (getProp (Some (response_data resp)) "releases") as [releases|e]; simpl.
  2: { destruct (logger this); simpl; eexists _, _, _;
         (split; [rewrite <- ?app_assoc; reflexivity|]); right; split;
         reflexivity. }
  destruct (getProp releases shortVersion) as [[[| | |[|]| |]|]|e]; simpl;
    destruct (logger this); simpl; eexists _, _, _;
    (split; [rewrite <- ?app_assoc; reflexivity|]);
    solve [right; split; reflexivity | left; eexists; split; reflexivity].
Qed.

(** A registry document of another shape makes [getLongVersion] throw: an
    object without [releases], or an entry for the requested version that
    is not a string. *)
Theorem getLongVersion_malformed (shortVersion : string) (s : State W)
    (resp : AxiosResponse) (w : W) (props : list (string * json)) :
  axios_get COMPILERS_LIST_URL (world s) = (Ok resp, w) →
  response_data resp = JObject props →
  ownProperty "releases" props = None
  ∨ (∃ (rels : list (string * json)) (entry : json),
       ownProperty "releases" props = Some (JObject rels)
       ∧ ownProperty shortVersion rels = Some entry
       ∧ ∀ text : string, entry ≠ JString text) →
  fst (getLongVersion axios_get this shortVersion s) = Throw lookupFailure.
Proof.
  intros Hget Hdata Hshape. run. rewrite Hget. simpl.
  destruct ((status resp <? 200)%Z || (299 <? status resp)%Z); simpl.
  { destruct (logger this); reflexivity. }
  rewrite Hdata. unfold getProp at 1.
  destruct Hshape as [-> | (rels & entry & -> & Hentry & Hnot)].
  - unfold getProp. simpl. destruct (logger this); reflexivity.
  - unfold getProp. rewrite Hentry.
    destruct entry as [| | |text| |]; simpl;
      try (destruct (logger this); reflexivity).
    exfalso. exact (Hnot text eq_refl).
Qed.

(** An entry that does not contain [soljson-] is returned as it is. *)
Theorem getLongVersion_verbatim (shortVersion fullVersion : string)
    (s : State W) (resp : AxiosResponse) (w : W)
    (props rels : list (string * json)) :
  axios_get COMPILERS_LIST_URL (world s) = (Ok resp, w) →
  (200 ≤ status resp ≤ 299)%Z →
  response_data resp = JObject props →
  ownProperty "releases" props = Some (JObject rels) →
  ownProperty shortVersion rels = Some (JString fullVersion) →
  fullVersion ≠ EmptyString →
  includes "soljson-" fullVersion = false →
  fst (getLongVersion axios_get this shortVersion s) = Ok fullVersion.
Proof.
  intros Hget Hst Hdata Hrel Hentry Hne Hno.
  rewrite (getLongVersion_found axios_get this _ _ s resp w props rels
             Hget Hst Hdata Hrel Hentry Hne).
  simpl. rewrite (replaceSoljson_unchanged _ Hno). reflexivity.
Qed.

(** A short version the registry cannot resolve stops [verifyContract]
    before anything is submitted: it throws the lookup error and neither
    back end is called. *)
Theorem verifyContract_lookup_failure (address : string)
    (verificationRequest : ContractVerificationRequest) (s : State W)
    (e : JsError) :
  includes "+" (version verificationRequest) = false →
  fst (getLongVersion axios_get this (version verificationRequest) s)
    = Throw e →
  ∃ (s' : State W) (evs : list Event),
    verifyContract axios_get this address verificationRequest s
      = (Throw lookupFailure, s')
    ∧ trace s' = trace s ++ evs
    ∧ backendCalls evs = [].
Proof.
  intros Hshort Hfail.
  pose proof (getLongVersion_throws axios_get this _ s e Hfail) as ->.
  destruct (getLongVersion_events axios_get this
              (version verificationRequest) s)
    as (r & w & evs & Hrun & Hno).
  rewrite Hrun in Hfail. simpl in Hfail. subst r.
  unfold verifyContract, normalizeVersion. rewrite Hshort.
  unfold bind. rewrite Hrun.
  eexists _, evs. split; [reflexivity|]. split; [reflexivity|exact Hno].
Qed.

(** Once the versions are derived and Tenderly has accepted, the Etherscan
    submission is made and its outcome, a return or an error, is the
    outcome of [verifyContract]. *)
Theorem verifyContract_etherscan_outcome (address : string)
    (verificationRequest : ContractVerificationRequest) (s s1 : State W)
    (shortVersion longVersion : string) (r : outcome unit) (w2 w3 : W) :
  normalizeVersion axios_get this (version verificationRequest) s
    = (Ok (shortVersion, longVersion), s1) →
  TenderlyVerifier.verifyContract (tenderlyVerifier this) address
    (contractToVerify verificationRequest)
    (tenderVerificationRequest verificationRequest shortVersion) (world s1)
    = (Ok tt, w2) →
  EtherscanVerifier.verifyContract (etherscanVerifier this) address
    (etherscanVerificationRequest verificationRequest longVersion) w2
    = (r, w3) →
  verifyContract axios_get this address verificationRequest s
    = (r, mkState w3
            (trace s1
             ++ [EvTenderly address (contractToVerify verificationRequest)
                   (tenderVerificationRequest verificationRequest shortVersion);
                 EvEtherscan address
                   (etherscanVerificationRequest verificationRequest
                      longVersion)])).
Proof.
  intros Hnorm Htenderly Hetherscan.
  unfold verifyContract. unfold bind at 1. rewrite Hnorm. simpl.
  unfold bind, call. simpl. rewrite Htenderly. simpl. rewrite Hetherscan.
  rewrite <- app_assoc. reflexivity.
Qed.

(** End to end with a short version: the registry maps it to a file name
    [soljson-<long>.js]; Tenderly is sent the version as given and, when it
    accepts, Etherscan is sent [<long>]. *)
Theorem verifyContract_short_version (address : string)
    (verificationRequest : ContractVerificationRequest) (s : State W)
    (longVersion : string) (resp : AxiosResponse)
    (props rels : list (string * json)) (r : outcome unit) (w1 w2 w3 : W) :
  includes "+" (version verificationRequest) = false →
  axios_get COMPILERS_LIST_URL (world s) = (Ok resp, w1) →
  (200 ≤ status resp ≤ 299)%Z →
  response_data resp = JObject props →
  ownProperty "releases" props = Some (JObject rels) →
  ownProperty (version verificationRequest) rels
    = Some (JString ("soljson-" +:+ longVersion +:+ ".js")) →
  singleLine longVersion = true →
  TenderlyVerifier.verifyContract (tenderlyVerifier this) address
    (contractToVerify verificationRequest)
    (tenderVerificationRequest verificationRequest
       (version verificationRequest)) w1
    = (Ok tt, w2) →
  EtherscanVerifier.verifyContract (etherscanVerifier this) address
    (etherscanVerificationRequest verificationRequest longVersion) w2
    = (r, w3) →
  verifyContract axios_get this address verificationRequest s
    = (r, mkState w3
            (trace s
             ++ [EvHttpGet COMPILERS_LIST_URL;
                 EvTenderly address (contractToVerify verificationRequest)
                   (tenderVerificationRequest verificationRequest
                      (version verificationRequest));
                 EvEtherscan address
                   (etherscanVerificationRequest verificationRequest
                      longVersion)])).
Proof.
  intros Hshort Hget Hst Hdata Hrel Hentry Hline Htenderly Hetherscan.
  unfold verifyContract, normalizeVersion. rewrite Hshort.
  unfold bind at 1. unfold bind at 1.
  rewrite (getLongVersion_found axios_get this _ _ s resp w1 props rels
             Hget Hst Hdata Hrel Hentry) by discriminate.
  rewrite (replaceSoljson_strips _ Hline). unfold ret. simpl.
  unfold bind, call. simpl. rewrite Htenderly. simpl. rewrite Hetherscan.
  rewrite <- !app_assoc. reflexivity.
Qed.

(** The library bindings of a request reach neither back end: changing
    them changes nothing in what [verifyContract] does. *)
Remark verifyContract_ignores_libraries (address : string)
    (verificationRequest : ContractVerificationRequest)
    (libraries : option (gmap string (gmap string string))) (s : State W) :
  verifyContract axios_get this address
    (setLibraries libraries verificationRequest) s
  = verifyContract axios_get this address verificationRequest s.
Proof. reflexivity. Qed.

End VerifierRuns.

(** ** The further properties on the sample environments *)

Lemma estimate_bounds_witness :
  (0 ≤ BigNumber_div (BigNumber_mul 30000000 4) 10 ≤ 30000000)%Z
  ∧ (10 * BigNumber_div (BigNumber_mul 30000000 4) 10 ≤ 4 * 30000000
     < 10 * BigNumber_div (BigNumber_mul 30000000 4) 10 + 10)%Z.
Proof. apply (estimate_bounds 30000000). lia. Defined.

Lemma deploy_without_data_witness :
  ∃ (s' : SingletonDeployer.State nat) (evs : list SingletonDeployer.Event),
    SingletonDeployer.deploy sampleEthers sampleDeployer "IERC20"
      abstractContract (Some 1%positive) tt (sampleState 0)
      = (Throw (Error ("No data for " +:+ "IERC20")), s')
    ∧ SingletonDeployer.world s' = 0
    ∧ SingletonDeployer.trace s' = [] ++ evs
    ∧ externalCalls evs = [].
Proof.
  apply (deploy_without_data sampleEthers sampleDeployer "IERC20"
           abstractContract (Some 1%positive) tt (sampleState 0)
           {| data := None |}); reflexivity.
Defined.

Lemma deploy_handle_at_addressOf_witness :
  ∃ address : string,
    SingletonDeployer.addressOf sampleEthers sampleDeployer "Counter__factory"
      sampleContract tt = Ok address
    ∧ sampleAddress = address.
Proof.
  apply (deploy_handle_at_addressOf sampleEthers sampleDeployer "Counter"
           "Counter__factory" sampleContract (Some 1%positive) tt
           (sampleState 1)
           (snd (SingletonDeployer.deploy sampleEthers sampleDeployer "Counter"
                   sampleContract (Some 1%positive) tt (sampleState 1)))
           sampleAddress).
  reflexivity.
Defined.

Lemma deploy_frame_witness :
  (∀ l' : loc, l' ≠ 1%positive →
     SingletonDeployer.heap
       (snd (SingletonDeployer.deploy sampleEthers sampleDeployer "Counter"
               sampleContract (Some 1%positive) tt (sampleState 0))) !! l'
     = SingletonDeployer.heap (sampleState 0) !! l')
  ∧ ∃ obj' : TransactionRequest,
      SingletonDeployer.heap
        (snd (SingletonDeployer.deploy sampleEthers sampleDeployer "Counter"
                sampleContract (Some 1%positive) tt (sampleState 0)))
        !! 1%positive = Some obj'
      ∧ ∀ k : string, k ≠ "gasLimit" → obj' !! k = sampleRequest !! k.
Proof.
  apply (deploy_frame sampleEthers sampleDeployer "Counter" sampleContract
           1%positive tt (sampleState 0) sampleRequest).
  reflexivity.
Defined.

Lemma deploy_default_request_fresh_witness :
  SingletonDeployer.heap
    (snd (SingletonDeployer.deploy sampleEthers sampleDeployer "Counter"
            sampleContract None tt (sampleState 0))) !! 1%positive
  = Some sampleRequest.
Proof.
  apply (deploy_default_request_fresh sampleEthers sampleDeployer "Counter"
           sampleContract tt (sampleState 0) 1%positive sampleRequest).
  reflexivity.
Defined.

Lemma deploy_query_failure_witness :
  ∃ (s' : SingletonDeployer.State nat) (evs : list SingletonDeployer.Event),
    SingletonDeployer.deploy sampleEthers
      (deployerOver offlineProvider sampleFactory) "Counter" sampleContract
      (Some 1%positive) tt (sampleState 0)
      = (Throw (Error "could not detect network"), s')
    ∧ SingletonDeployer.world s' = 0
    ∧ SingletonDeployer.heap s' = SingletonDeployer.heap (sampleState 0)
    ∧ SingletonDeployer.trace s' = [] ++ evs
    ∧ externalCalls evs = [SingletonDeployer.EvGetCode sampleAddress].
Proof.
  apply (deploy_query_failure sampleEthers
           (deployerOver offlineProvider sampleFactory) "Counter"
           sampleContract (Some 1%positive) tt (sampleState 0)
           {| data := Some sampleInitCode |} sampleInitCode sampleAddress
           (Error "could not detect network") 0); reflexivity.
Defined.

Lemma deploy_confirmed_witness :
  ∃ (s' : SingletonDeployer.State nat) (evs : list SingletonDeployer.Event),
    SingletonDeployer.deploy sampleEthers sampleDeployer "Counter"
      sampleContract (Some 1%positive) tt (sampleState 0)
      = (Ok sampleAddress, s')
    ∧ SingletonDeployer.world s' = 1
    ∧ SingletonDeployer.trace s' = [] ++ evs
    ∧ List.filter SingletonDeployer.isTransaction evs
      = [SingletonDeployer.EvFactoryDeploy sampleInitCode HashZero 1%positive
           (<["gasLimit" := JsBigNumber 12000000]> sampleRequest)].
Proof.
  apply (deploy_confirmed sampleEthers sampleDeployer "Counter"
           sampleContract (Some 1%positive) tt (sampleState 0)
           {| data := Some sampleInitCode |} sampleInitCode sampleAddress
           "0x" "0x6080" sampleRequest
           (<["gasLimit" := JsBigNumber 12000000]> sampleRequest)
           0 0 0 1 1 {| wait := λ n, (Ok tt, S n) |});
    try reflexivity; try (simpl; lia).
  left. split; [reflexivity|].
  exists {| gasLimit := 30000000 |}. split; reflexivity.
Defined.

Lemma deploy_keeps_gasLimit_witness :
  ∃ (r : outcome string) (s' : SingletonDeployer.State nat)
    (evs : list SingletonDeployer.Event),
    SingletonDeployer.deploy sampleEthers sampleDeployer "Counter"
      sampleContract (Some 1%positive) tt (bigZeroGasState 0) = (r, s')
    ∧ SingletonDeployer.heap s' = SingletonDeployer.heap (bigZeroGasState 0)
    ∧ SingletonDeployer.trace s' = [] ++ evs
    ∧ List.filter isBlockQuery evs = []
    ∧ List.filter SingletonDeployer.isTransaction evs
      = [SingletonDeployer.EvFactoryDeploy sampleInitCode HashZero 1%positive
           {[ "gasLimit" := JsBigNumber 0 ]}].
Proof.
  apply (deploy_keeps_gasLimit sampleEthers sampleDeployer "Counter"
           sampleContract 1%positive tt (bigZeroGasState 0)
           {| data := Some sampleInitCode |} sampleInitCode sampleAddress
           "0x" {[ "gasLimit" := JsBigNumber 0 ]} (JsBigNumber 0) 0);
    try reflexivity; try (simpl; lia).
Defined.

Lemma deploy_replaces_falsy_gasLimit_witness :
  ∃ (r : outcome string) (s' : SingletonDeployer.State nat)
    (evs : list SingletonDeployer.Event),
    SingletonDeployer.deploy sampleEthers sampleDeployer "Counter"
      sampleContract (Some 1%positive) tt (numberZeroGasState 0) = (r, s')
    ∧ SingletonDeployer.heap s'
      = <[1%positive := <["gasLimit" := JsBigNumber 12000000]>
                          {[ "gasLimit" := JsNumber 0 ]}]>
          (SingletonDeployer.heap (numberZeroGasState 0))
    ∧ SingletonDeployer.trace s' = [] ++ evs
    ∧ List.filter SingletonDeployer.isTransaction evs
      = [SingletonDeployer.EvFactoryDeploy sampleInitCode HashZero 1%positive
           (<["gasLimit" := JsBigNumber 12000000]>
              {[ "gasLimit" := JsNumber 0 ]})].
Proof.
  apply (deploy_replaces_falsy_gasLimit sampleEthers sampleDeployer "Counter"
           sampleContract 1%positive tt (numberZeroGasState 0)
           {| data := Some sampleInitCode |} sampleInitCode sampleAddress
           "0x" {[ "gasLimit" := JsNumber 0 ]} (JsNumber 0)
           {| gasLimit := 30000000 |} 0 0);
    try reflexivity; try (simpl; lia).
Defined.

Lemma deploy_block_failure_witness :
  ∃ (s' : SingletonDeployer.State nat) (evs : list SingletonDeployer.Event),
    SingletonDeployer.deploy sampleEthers
      (deployerOver blocklessProvider sampleFactory) "Counter" sampleContract
      (Some 1%positive) tt (sampleState 0)
      = (Throw (Error "missing response"), s')
    ∧ SingletonDeployer.heap s' = SingletonDeployer.heap (sampleState 0)
    ∧ SingletonDeployer.trace s' = [] ++ evs
    ∧ externalCalls evs
      = [SingletonDeployer.EvGetCode sampleAddress;
         SingletonDeployer.EvGetBlock "latest"].
Proof.
  apply (deploy_block_failure sampleEthers
           (deployerOver blocklessProvider sampleFactory) "Counter"
           sampleContract (Some 1%positive) tt (sampleState 0)
           {| data := Some sampleInitCode |} sampleInitCode sampleAddress
           "0x" sampleRequest (Error "missing response") 0 0);
    try reflexivity; try (simpl; lia).
Defined.

Lemma deploy_rejected_witness :
  ∃ (s' : SingletonDeployer.State nat) (evs : list SingletonDeployer.Event),
    SingletonDeployer.deploy sampleEthers
      (deployerOver sampleProvider rejectingFactory) "Counter" sampleContract
      (Some 1%positive) tt (sampleState 0)
      = (Throw (Error "insufficient funds"), s')
    ∧ SingletonDeployer.world s' = 0
    ∧ SingletonDeployer.trace s' = [] ++ evs
    ∧ externalCalls evs
      = [SingletonDeployer.EvGetCode sampleAddress;
         SingletonDeployer.EvGetBlock "latest";
         SingletonDeployer.EvFactoryDeploy sampleInitCode HashZero 1%positive
           (<["gasLimit" := JsBigNumber 12000000]> sampleRequest)].
Proof.
  apply (deploy_rejected sampleEthers
           (deployerOver sampleProvider rejectingFactory) "Counter"
           sampleContract (Some 1%positive) tt (sampleState 0)
           {| data := Some sampleInitCode |} sampleInitCode sampleAddress
           "0x" sampleRequest
           (<["gasLimit" := JsBigNumber 12000000]> sampleRequest)
           (Error "insufficient funds") 0 0 0);
    try reflexivity; try (simpl; lia).
  left. split; [reflexivity|].
  exists {| gasLimit := 30000000 |}. split; reflexivity.
Defined.

Lemma deploy_reverted_witness :
  ∃ (s' : SingletonDeployer.State nat) (evs : list SingletonDeployer.Event),
    SingletonDeployer.deploy sampleEthers
      (deployerOver sampleProvider revertingFactory) "Counter" sampleContract
      (Some 1%positive) tt (sampleState 0)
      = (Throw (Error "transaction failed"), s')
    ∧ SingletonDeployer.world s' = 0
    ∧ SingletonDeployer.trace s' = [] ++ evs
    ∧ externalCalls evs
      = [SingletonDeployer.EvGetCode sampleAddress;
         SingletonDeployer.EvGetBlock "latest";
         SingletonDeployer.EvFactoryDeploy sampleInitCode HashZero 1%positive
           (<["gasLimit" := JsBigNumber 12000000]> sampleRequest);
         SingletonDeployer.EvWait].
Proof.
  apply (deploy_reverted sampleEthers
           (deployerOver sampleProvider revertingFactory) "Counter"
           sampleContract (Some 1%positive) tt (sampleState 0)
           {| data := Some sampleInitCode |} sampleInitCode sampleAddress
           "0x" sampleRequest
           (<["gasLimit" := JsBigNumber 12000000]> sampleRequest)
           (Error "transaction failed") 0 0 0 0
           {| wait := λ n, (Throw (Error "transaction failed"), n) |});
    try reflexivity; try (simpl; lia).
  left. split; [reflexivity|].
  exists {| gasLimit := 30000000 |}. split; reflexivity.
Defined.

Lemma getLongVersion_malformed_witness :
  fst (ContractVerifier.getLongVersion oddAxios sampleVerifier "v0.4.0"
         (sampleVerifierState true))
  = Throw ContractVerifier.lookupFailure.
Proof.
  apply (getLongVersion_malformed oddAxios sampleVerifier "v0.4.0"
           (sampleVerifierState true)
           {| status := 200; response_data := oddRegistry |} true
           [("releases",
             JObject [("v0.4.0", JNumber 4);
                      ("v0.5.0", JString "v0.5.0+commit.1d4f565a")])]);
    try reflexivity.
  right. exists [("v0.4.0", JNumber 4);
                 ("v0.5.0", JString "v0.5.0+commit.1d4f565a")], (JNumber 4).
  split; [reflexivity|]. split; [reflexivity|]. discriminate.
Defined.

Lemma getLongVersion_verbatim_witness :
  fst (ContractVerifier.getLongVersion oddAxios sampleVerifier "v0.5.0"
         (sampleVerifierState true))
  = Ok "v0.5.0+commit.1d4f565a".
Proof.
  apply (getLongVersion_verbatim oddAxios sampleVerifier "v0.5.0"
           "v0.5.0+commit.1d4f565a" (sampleVerifierState true)
           {| status := 200; response_data := oddRegistry |} true
           [("releases",
             JObject [("v0.4.0", JNumber 4);
                      ("v0.5.0", JString "v0.5.0+commit.1d4f565a")])]
           [("v0.4.0", JNumber 4);
            ("v0.5.0", JString "v0.5.0+commit.1d4f565a")]);
    try reflexivity; try discriminate. simpl. lia.
Defined.

Lemma verifyContract_lookup_failure_witness :
  ∃ (s' : ContractVerifier.State bool) (evs : list ContractVerifier.Event),
    ContractVerifier.verifyContract sampleAxios acceptingVerifier "0x5FbDB2"
      shortVersionRequest (sampleVerifierState false)
      = (Throw ContractVerifier.lookupFailure, s')
    ∧ ContractVerifier.trace s' = [] ++ evs
    ∧ ContractVerifier.backendCalls evs = [].
Proof.
  apply (verifyContract_lookup_failure sampleAxios acceptingVerifier
           "0x5FbDB2" shortVersionRequest (sampleVerifierState false)
           ContractVerifier.lookupFailure); reflexivity.
Defined.

Lemma verifyContract_etherscan_outcome_witness :
  ContractVerifier.verifyContract sampleAxios refusedVerifier "0x5FbDB2"
    sampleVerificationRequest (sampleVerifierState true)
  = (Throw (Error "Invalid API Key"),
     ContractVerifier.mkState true
       ([] ++ [ContractVerifier.EvTenderly "0x5FbDB2"
                 "Counter.sol:CounterWithLogs"
                 (ContractVerifier.tenderVerificationRequest
                    sampleVerificationRequest "v0.8.18");
               ContractVerifier.EvEtherscan "0x5FbDB2"
                 (ContractVerifier.etherscanVerificationRequest
                    sampleVerificationRequest "v0.8.18+commit.87f61d96")])).
Proof.
  apply (verifyContract_etherscan_outcome sampleAxios refusedVerifier
           "0x5FbDB2" sampleVerificationRequest (sampleVerifierState true)
           (sampleVerifierState true) "v0.8.18" "v0.8.18+commit.87f61d96"
           (Throw (Error "Invalid API Key")) true true); reflexivity.
Defined.

Lemma verifyContract_short_version_witness :
  ContractVerifier.verifyContract sampleAxios acceptingVerifier "0x5FbDB2"
    shortVersionRequest (sampleVerifierState true)
  = (Ok tt,
     ContractVerifier.mkState true
       ([] ++ [ContractVerifier.EvHttpGet ContractVerifier.COMPILERS_LIST_URL;
               ContractVerifier.EvTenderly "0x5FbDB2"
                 "Counter.sol:CounterWithLogs"
                 (ContractVerifier.tenderVerificationRequest
                    shortVersionRequest "v0.8.18");
               ContractVerifier.EvEtherscan "0x5FbDB2"
                 (ContractVerifier.etherscanVerificationRequest
                    shortVersionRequest "v0.8.18+commit.87f61d96")])).
Proof.
  apply (verifyContract_short_version sampleAxios acceptingVerifier
           "0x5FbDB2" shortVersionRequest (sampleVerifierState true)
           "v0.8.18+commit.87f61d96"
           {| status := 200; response_data := sampleRegistry |}
           [("builds", JArray []);
            ("releases",
             JObject
               [("v0.8.18", JString "soljson-v0.8.18+commit.87f61d96.js");
                ("v0.8.19", JString "")])]
           [("v0.8.18", JString "soljson-v0.8.18+commit.87f61d96.js");
            ("v0.8.19", JString "")]
           (Ok tt) true true true);
    try reflexivity. simpl. lia.
Defined.

(** ** Repeated deployment *)

Section DeployerRepeat.

Import SingletonDeployer.

Context {W Signer Args Contract : Type}.
Variable ethers : EthersUtils.
Variable this : SingletonDeployer W Signer.

(** What a returned handle tells about the call. *)
Lemma deploy_returned (name : string)
    (contract : Signer → ContractFactory Args Contract)
    (txParams : option loc) (args : Args) (s s' : State W) (handle : Contract) :
  deploy ethers this name contract txParams args s = (Ok handle, s') →
  ∃ (dtx : DeployTransaction) (d : bytes) (address : string),
    getDeployTransaction (contract (signer this)) args = Ok dtx
    ∧ data dtx = Some d
    ∧ addressFromData ethers this d = Ok address
    ∧ handle = attach (contract (signer this)) address.
Proof.
  unfold deploy, upTheGas, factoryDeploy, call, log, logError, emit,
    readField, writeField, alloc, bind, ret, throw, lift; simpl.
  destruct txParams as [l|]; destruct (logger this); simpl;
    (destruct (getDeployTransaction (contract (signer this)) args) as [dtx|e];
       simpl; [|discriminate]);
    (destruct (data dtx) as [d|] eqn:Hd; simpl; [|discriminate]);
    (destruct (addressFromData ethers this d) as [address|e] eqn:Haddr; simpl;
       [|discriminate]);
    repeat match goal with
      | |- context [match ?x with _ => _ end] =>
          lazymatch x with
          | context [match _ with _ => _ end] => fail
          | _ => destruct x eqn:?; simpl
          end
      end;
    intros H; try discriminate;
    injection H as <- _; exists dtx, d, address; auto.
Qed.

(** Deploying again.  After a call of [deploy] has returned a handle, a
    second call for the same factory and arguments that finds code at the
    derived address returns the same handle and sends no transaction,
    whatever name and transaction parameters it is given. *)
Theorem deploy_again (name name' contractName : string)
    (contract : Signer → ContractFactory Args Contract)
    (txParams txParams' : option loc) (args : Args) (s s1 : State W)
    (handle : Contract) (address code : string) (w2 : W) :
  deploy ethers this name contract txParams args s = (Ok handle, s1) →
  addressOf ethers this contractName contract args = Ok address →
  getCode (provider this) address (world s1) = (Ok code, w2) →
  2 < String.length code →
  ∃ (s2 : State W) (evs : list Event),
    deploy ethers this name' contract txParams' args s1 = (Ok handle, s2)
    ∧ trace s2 = trace s1 ++ evs
    ∧ Forall (λ ev, isTransaction ev = false) evs.
Proof.
  intros Hfirst Hof Hcode Hlen.
  destruct (deploy_returned name contract txParams args s s1 handle Hfirst)
    as (dtx & d & address' & Hdtx & Hd & Haddr & ->).
  unfold addressOf in Hof. rewrite Hdtx, Hd, Haddr in Hof.
  injection Hof as ->.
  destruct (deploy_short_circuit ethers this name' contract txParams' args s1
              dtx d address code w2 Hdtx Hd Haddr Hcode Hlen)
    as (s2 & evs & Hrun & _ & _ & Htrace & Hno).
  exists s2, evs. auto.
Qed.

End DeployerRepeat.

Lemma deploy_again_witness :
  ∃ (s2 : SingletonDeployer.State nat) (evs : list SingletonDeployer.Event),
    SingletonDeployer.deploy sampleEthers sampleDeployer "Counter (again)"
      sampleContract None tt
      (snd (SingletonDeployer.deploy sampleEthers sampleDeployer "Counter"
              sampleContract (Some 1%positive) tt (sampleState 0)))
      = (Ok sampleAddress, s2)
    ∧ SingletonDeployer.trace s2
      = SingletonDeployer.trace
          (snd (SingletonDeployer.deploy sampleEthers sampleDeployer "Counter"
                  sampleContract (Some 1%positive) tt (sampleState 0)))
        ++ evs
    ∧ Forall (λ ev, SingletonDeployer.isTransaction ev = false) evs.
Proof.
  apply (deploy_again sampleEthers sampleDeployer "Counter" "Counter (again)"
           "Counter__factory" sampleContract (Some 1%positive) None tt
           (sampleState 0)
           (snd (SingletonDeployer.deploy sampleEthers sampleDeployer "Counter"
                   sampleContract (Some 1%positive) tt (sampleState 0)))
           sampleAddress sampleAddress "0x6080" 1);
    try reflexivity; try (simpl; lia).
Defined.
